(** * The [uncompress] Ansible module, embedded and verified

    Source: [plugins/modules/uncompress.py].

    The module is a single Python script.  Its pure string code
    ([derive_uncompressed_filename], the [os.path] helpers it calls) is
    embedded as functions on [string]; its effectful code ([ungzip],
    [unbzip], [unxzip], [filetype], [copyfile], [main]) is embedded in a
    state-and-exception monad over a model of the file system.  What the
    script obtains from outside (the [file] and [xz] commands, the gzip
    and bzip2 decoders, the URL fetcher, the file-attribute helper) is
    collected in one record of collaborators, over which the theorems
    quantify. *)

From stdpp Require Import gmap strings list.
From Stdlib Require Import ZArith Ascii String DecimalString.
From Stdlib.Strings Require Import Byte.

Open Scope string_scope.

(** ** Python [str] operations *)

Module PyStr.

(** [s[:n]] for [0 <= n]. *)
Fixpoint take (n : nat) (s : string) : string :=
  match n, s with
  | S n', String c r => String c (take n' r)
  | _, _ => EmptyString
  end.

(** [s[n:]] for [0 <= n]. *)
Fixpoint drop (n : nat) (s : string) : string :=
  match n, s with
  | S n', String _ r => drop n' r
  | _, _ => s
  end.

(** [s.startswith(p)] *)
Definition startswith (p s : string) : bool := String.prefix p s.

(** [s.endswith(p)] *)
Definition endswith (p s : string) : bool :=
  (String.length p <=? String.length s)%nat
  && String.eqb (drop (String.length s - String.length p) s) p.

(** [s[:-k]] for a positive literal [k]: the slice bound [-k] is
    clipped at the start of the string. *)
Definition chop (k : nat) (s : string) : string :=
  take (String.length s - k) s.

(** [s.find(sub)], with [None] for Python's [-1]. *)
Fixpoint find (sub s : string) : option nat :=
  if String.prefix sub s then Some 0
  else match s with
       | EmptyString => None
       | String _ r => S <$> find sub r
       end.

(** [s.rfind(sub)], with [None] for Python's [-1]. *)
Fixpoint rfind (sub s : string) : option nat :=
  match s with
  | EmptyString => if String.prefix sub s then Some 0 else None
  | String _ r =>
      match rfind sub r with
      | Some i => Some (S i)
      | None => if String.prefix sub s then Some 0 else None
      end
  end.

(** [sub in s] *)
Definition contains (sub s : string) : bool :=
  match find sub s with Some _ => true | None => false end.

(** [s.split(sep, 1)] *)
Definition split1 (sep s : string) : list string :=
  match find sep s with
  | Some i => [take i s; drop (i + String.length sep) s]
  | None => [s]
  end.

(** [s.rsplit(sep, 1)] *)
Definition rsplit1 (sep s : string) : list string :=
  match rfind sep s with
  | Some i => [take i s; drop (i + String.length sep) s]
  | None => [s]
  end.

(** [l[i]] and [l[-1]] on the lists returned by the splits; the
    default is never reached where the source indexes: a list is
    never empty, and [split1_two] gives the second item under the
    guard of the caller. *)
Definition item (i : nat) (l : list string) : string := nth i l "".
Definition item_last (l : list string) : string := List.last l "".

(** [s.rstrip('/')] *)
Fixpoint rstrip_slash (s : string) : string :=
  match s with
  | EmptyString => EmptyString
  | String c r =>
      match rstrip_slash r with
      | EmptyString => if Ascii.eqb c "/" then EmptyString else String c EmptyString
      | r' => String c r'
      end
  end.

(** [c * n] for a one-character string [c] *)
Fixpoint repeat_char (c : ascii) (n : nat) : string :=
  match n with
  | O => EmptyString
  | S n' => String c (repeat_char c n')
  end.

(** [str(n)] for an integer *)
Definition of_Z (n : Z) : string := NilZero.string_of_int (Z.to_int n).

End PyStr.

(** ** [posixpath]: the pure path functions the module calls *)

Module PosixPath.
Import PyStr.

(** [p.rfind('/') + 1] *)
Definition after_sep (p : string) : nat :=
  match rfind "/" p with Some i => S i | None => 0 end.

(** [os.path.basename(p)]: [i = p.rfind('/') + 1; return p[i:]] *)
Definition basename (p : string) : string := drop (after_sep p) p.

(** [os.path.split(p)]: head and tail around the last slash; trailing
    slashes are stripped from the head unless it is all slashes. *)
Definition split (p : string) : string * string :=
  let i := after_sep p in
  let head := take i p in
  let tail := drop i p in
  let head :=
    if negb (String.eqb head "")
       && negb (String.eqb head (repeat_char "/" (String.length head)))
    then rstrip_slash head else head in
  (head, tail).

(** [os.path.join(a, b)] with two arguments *)
Definition join (a b : string) : string :=
  if startswith "/" b then b
  else if String.eqb a "" || endswith "/" a then a ++ b
  else a ++ "/" ++ b.

(** The loop of [genericpath._splitext]: is there a character other
    than the dot in [p[filenameIndex:dotIndex]]? *)
Fixpoint has_non_dot (s : string) : bool :=
  match s with
  | EmptyString => false
  | String c r => negb (Ascii.eqb c ".") || has_non_dot r
  end.

(** [os.path.splitext(p)]: the extension starts at the last dot of
    the last component, leading dots of the component not counting. *)
Definition splitext (p : string) : string * string :=
  match rfind "." p with
  | Some dotIndex =>
      let filenameIndex := after_sep p in
      if (filenameIndex <=? dotIndex)%nat
         && has_non_dot (take (dotIndex - filenameIndex) (drop filenameIndex p))
      then (take dotIndex p, drop dotIndex p)
      else (p, "")
  | None => (p, "")
  end.

End PosixPath.

(** ** [derive_uncompressed_filename] (lines 124-157) *)

Module Derive.
Import PyStr.

Definition url_schemes : list string := ["http"; "https"; "ftp"; "ftps"; "file"].

Definition is_url (src : string) : bool :=
  contains "://" src
  && existsb (fun scheme => startswith (scheme ++ "://") src) url_schemes.

Definition derive_uncompressed_filename (src : string) : string :=
  let filename :=
    if is_url src then
      let path_part := item 1 (split1 "://" src) in
      let filename := item_last (rsplit1 "/" path_part) in
      item 0 (split1 "?" filename)
    else PosixPath.basename src in
  if endswith ".gz" filename then chop 3 filename
  else if endswith ".bz2" filename then chop 4 filename
  else if endswith ".xz" filename then chop 3 filename
  else if endswith ".lzma" filename then chop 5 filename
  else if endswith ".txz" filename then chop 4 filename ++ ".tar"
  else if endswith ".tlz" filename then chop 4 filename ++ ".tar"
  else filename.

(** *** The derivation as the specification words it *)

Fixpoint has_slash (s : string) : bool :=
  match s with
  | EmptyString => false
  | String c r => Ascii.eqb c "/" || has_slash r
  end.

(** The last path segment: what follows the last slash. *)
Fixpoint last_segment (s : string) : string :=
  match s with
  | EmptyString => EmptyString
  | String c r =>
      if has_slash r then last_segment r
      else if Ascii.eqb c "/" then r else s
  end.

(** Everything from the first question mark onward removed. *)
Fixpoint strip_query (s : string) : string :=
  match s with
  | EmptyString => EmptyString
  | String c r => if Ascii.eqb c "?" then EmptyString else String c (strip_query r)
  end.

(** [strip_suffix suf s = Some stem] exactly when [s = stem ++ suf]. *)
Fixpoint strip_suffix (suf s : string) : option string :=
  if String.eqb s suf then Some EmptyString
  else match s with
       | EmptyString => None
       | String c r => String c <$> strip_suffix suf r
       end.

(** The rewriting table, in the order it is checked. *)
Definition suffix_table : list (string * string) :=
  [(".gz", ""); (".bz2", ""); (".xz", ""); (".lzma", "");
   (".txz", ".tar"); (".tlz", ".tar")].

Fixpoint rewrite_with (table : list (string * string)) (name : string) : string :=
  match table with
  | [] => name
  | (suf, repl) :: rest =>
      match strip_suffix suf name with
      | Some stem => stem ++ repl
      | None => rewrite_with rest name
      end
  end.

Definition starts_with_scheme (src : string) : bool :=
  existsb (fun scheme => String.prefix (scheme ++ "://") src) url_schemes.

Definition spec_derive (src : string) : string :=
  let segment := last_segment src in
  rewrite_with suffix_table
    (if starts_with_scheme src then strip_query segment else segment).

End Derive.

(** ** The file system and the interpreter state the module runs in *)

#[global] Instance byte_eq_decision : EqDecision byte := byte_eq_dec.

Module Sys.

(** A directory entry: a regular file with its bytes and modification
    time, or a directory with the size [stat] reports for it. *)
Inductive node : Type :=
| File (data : list byte) (mtime : Z)
| Dir (st_size : nat).

(** The world: the files by canonical path, and the current time,
    which stamps every write. *)
Record world : Type := World { files : gmap string node; clock : Z }.

(** Python exceptions below [Exception]: [OSError] (with [IOError]
    and [shutil.Error], its aliases and subclasses) and all others. *)
Inductive exn : Type :=
| OSError (msg : string)
| OtherError (msg : string).

(** ["%s" % e] *)
Definition exn_str (e : exn) : string :=
  match e with OSError m => m | OtherError m => m end.

(** What the module prints before it leaves through [sys.exit]. *)
Inductive result : Type :=
| FailJson (msg : string)
| ExitJson (changed : bool) (dest : string).

(** A step ends by returning a value, by raising an exception, or by
    [SystemExit] after [fail_json]/[exit_json]; [SystemExit] is not an
    [Exception], so no handler of the module catches it. *)
Inductive res (A : Type) : Type :=
| Ret (a : A)
| Raise (e : exn)
| Exit (r : result).
Arguments Ret {A} a.
Arguments Raise {A} e.
Arguments Exit {A} r.

Definition M (A : Type) : Type := world -> res A * world.

Definition ret {A} (a : A) : M A := fun w => (Ret a, w).
Definition raise {A} (e : exn) : M A := fun w => (Raise e, w).
Definition fail_json {A} (msg : string) : M A := fun w => (Exit (FailJson msg), w).
Definition exit_json {A} (changed : bool) (dest : string) : M A :=
  fun w => (Exit (ExitJson changed dest), w).

Definition bind {A B} (m : M A) (k : A -> M B) : M B :=
  fun w =>
    match m w with
    | (Ret a, w') => k a w'
    | (Raise e, w') => (Raise e, w')
    | (Exit r, w') => (Exit r, w')
    end.

(** [try: body / except Exception as e: handler] *)
Definition try_except {A} (body : M A) (handler : exn -> M A) : M A :=
  fun w =>
    match body w with
    | (Raise e, w') => handler e w'
    | other => other
    end.

(** The same files at another time: what a later run starts from. *)
Definition at_time (t : Z) (w : world) : world := World (files w) t.

End Sys.

Import Sys.

Declare Scope py_scope.
Delimit Scope py_scope with py.
Notation "x <- m ;; k" := (bind m (fun x => k))
  (at level 100, m at level 99, right associativity) : py_scope.
Notation "m ;;; k" := (bind m (fun _ => k))
  (at level 100, right associativity) : py_scope.
Open Scope py_scope.

(** ** What the module takes from outside *)

Record collaborators : Type := Collaborators {
  (** [os.path.expanduser] *)
  expanduser : string -> string;
  (** the kernel's path resolution: the canonical name of a path *)
  realpath : string -> string;
  (** [module.get_bin_path], [None] when the program is not found *)
  get_bin_path : string -> option string;
  (** [module.run_command]: return code, standard output, standard error *)
  run_command : string -> M (Z * string * string);
  (** the gzip and bzip2 stream decoders: the bytes they deliver, and
      the exception that ends the stream early, if any *)
  gzip_decode : list byte -> list byte * option exn;
  bz2_decode : list byte -> list byte * option exn;
  (** [fetch_url]: the response body and [info["status"]] *)
  fetch_url : string -> M (list byte * Z);
  (** [os.access(path, os.R_OK)] *)
  access_R_OK : string -> M bool;
  (** [module.set_fs_attributes_if_different(file_args, changed)], with
      [file_args['path']] as first argument *)
  set_fs_attributes_if_different : string -> bool -> M bool
}.

(** The module's parameters ([module.params]). *)
Record params : Type := Params {
  p_src : string;
  p_dest : string;
  p_copy : bool;
  p_deep_check : bool
}.

Module Uncompress.
Import PyStr.

Section WithCollaborators.
Variable C : collaborators.

(** *** [os], [os.path], [shutil], [filecmp] and [open] on the model *)

Definition stat (p : string) (w : world) : option node :=
  files w !! realpath C p.

Definition isfile (p : string) : M bool :=
  fun w => (Ret match stat p w with Some (File _ _) => true | _ => false end, w).

Definition isdir (p : string) : M bool :=
  fun w => (Ret match stat p w with Some (Dir _) => true | _ => false end, w).

Definition exists_ (p : string) : M bool :=
  fun w => (Ret match stat p w with Some _ => true | None => false end, w).

Definition enoent (p : string) : exn :=
  OSError ("[Errno 2] No such file or directory: '" ++ p ++ "'").
Definition eisdir (p : string) : exn :=
  OSError ("[Errno 21] Is a directory: '" ++ p ++ "'").

(** [os.path.getsize(p)] *)
Definition getsize (p : string) : M nat :=
  fun w =>
    match stat p w with
    | Some (File data _) => (Ret (List.length data), w)
    | Some (Dir n) => (Ret n, w)
    | None => (Raise (enoent p), w)
    end.

(** Does the directory that would hold [p] exist? *)
Definition parent_isdir (p : string) (w : world) : bool :=
  match files w !! (PosixPath.split (realpath C p)).1 with
  | Some (Dir _) => true
  | _ => false
  end.

(** Opening [p] for reading: it must be there and not a directory. *)
Definition open_rb (p : string) : M unit :=
  fun w =>
    match stat p w with
    | Some (File _ _) => (Ret tt, w)
    | Some (Dir _) => (Raise (eisdir p), w)
    | None => (Raise (enoent p), w)
    end.

(** The world after [p] has been given the bytes [data], now. *)
Definition written (p : string) (data : list byte) (w : world) : world :=
  World (<[realpath C p := File data (clock w)]> (files w)) (clock w).

(** [open(p, 'wb')]: an existing file is truncated, a missing one is
    created in its directory. *)
Definition open_wb (p : string) : M unit :=
  fun w =>
    match stat p w with
    | Some (Dir _) => (Raise (eisdir p), w)
    | Some (File _ _) => (Ret tt, written p [] w)
    | None =>
        if parent_isdir p w then (Ret tt, written p [] w)
        else (Raise (enoent p), w)
    end.

(** Can [p] be opened for writing? *)
Definition writable (p : string) (w : world) : bool :=
  match stat p w with
  | Some (File _ _) => true
  | Some (Dir _) => false
  | None => parent_isdir p w
  end.

(** What a reader of [p] gets from now on. *)
Definition read (p : string) : M (list byte) :=
  fun w =>
    match stat p w with
    | Some (File data _) => (Ret data, w)
    | Some (Dir _) => (Raise (eisdir p), w)
    | None => (Raise (enoent p), w)
    end.

(** [f.write(data)] on a file opened for writing at [p]. *)
Definition write (p : string) (data : list byte) : M unit :=
  fun w =>
    match stat p w with
    | Some (File old _) => (Ret tt, written p (old ++ data)%list w)
    | Some (Dir _) => (Raise (eisdir p), w)
    | None => (Raise (enoent p), w)
    end.

(** The world after the file at [src], with bytes [data] and
    modification time [mtime], has been renamed to [dst]. *)
Definition moved (src dst : string) (data : list byte) (mtime : Z) (w : world) : world :=
  World (<[realpath C dst := File data mtime]> (delete (realpath C src) (files w)))
        (clock w).

(** [os.rename(src, dst)] for a regular file [src]: [dst] is replaced
    if it is a file; the entry keeps its bytes and modification time. *)
Definition rename (src dst : string) : M unit :=
  fun w =>
    match stat src w with
    | Some (File data mtime) =>
        match stat dst w with
        | Some (Dir _) => (Raise (eisdir dst), w)
        | Some (File _ _) => (Ret tt, moved src dst data mtime w)
        | None =>
            if parent_isdir dst w
            then (Ret tt, moved src dst data mtime w)
            else (Raise (enoent dst), w)
        end
    | Some (Dir _) =>
        (Raise (OSError ("moving the directory '" ++ src ++ "' is outside this model")), w)
    | None => (Raise (enoent src), w)
    end.

(** [shutil.move(src, dst)]: into [dst] when it is a directory (an
    existing entry of that name there is an error), onto [dst]
    otherwise. *)
Definition move (src dst : string) : M unit :=
  dst_isdir <- isdir dst ;;
  if dst_isdir : bool then
    let real_dst := PosixPath.join dst (PosixPath.basename src) in
    taken <- exists_ real_dst ;;
    if taken : bool
    then raise (OSError ("Destination path '" ++ real_dst ++ "' already exists"))
    else rename src real_dst
  else rename src dst.

(** [filecmp.cmp(f1, f2, shallow)]: files that are not both regular
    differ; with [shallow], files whose [stat] signatures (type, size,
    modification time) are identical are taken as equal unread; files
    of different sizes differ; otherwise the contents are compared. *)
Definition filecmp_cmp (f1 f2 : string) (shallow : bool) : M bool :=
  fun w =>
    match stat f1 w, stat f2 w with
    | None, _ => (Raise (enoent f1), w)
    | _, None => (Raise (enoent f2), w)
    | Some (File d1 t1), Some (File d2 t2) =>
        if shallow && (List.length d1 =? List.length d2)%nat && (t1 =? t2)%Z
        then (Ret true, w)
        else if negb (List.length d1 =? List.length d2)%nat then (Ret false, w)
        else (Ret (bool_decide (d1 = d2)), w)
    | Some _, Some _ => (Ret false, w)
    end.

(** *** The decompressors (lines 160-214) *)

(** [shutil.copyfileobj] from a decoding reader of [src] to the file
    opened at [dest]: what the decoder delivers reaches [dest], then
    the decoder's exception, if any, is raised. *)
Definition copy_decoded (decode : list byte -> list byte * option exn)
    (src dest : string) : M unit :=
  data <- read src ;;
  let '(out, err) := decode data in
  write dest out ;;;
  match err with
  | Some e => raise e
  | None => ret tt
  end.

Definition ungzip (src dest : string) : M string :=
  try_except
    (open_rb src ;;;
     open_wb dest ;;;
     copy_decoded (gzip_decode C) src dest ;;;
     ret "")
    (fun e => ret (exn_str e)).

Definition unbzip (src dest : string) : M string :=
  try_except
    (open_rb src ;;;
     open_wb dest ;;;
     copy_decoded (bz2_decode C) src dest ;;;
     ret "")
    (fun e => ret (exn_str e)).

(** The body that [ungzip] and [unbzip] share, for any decoder:
    [ungzip] is [in_process (gzip_decode C)] and [unbzip] is
    [in_process (bz2_decode C)]. *)
Definition in_process (decode : list byte -> list byte * option exn)
    (src dest : string) : M string :=
  try_except
    (open_rb src ;;;
     open_wb dest ;;;
     copy_decoded decode src dest ;;;
     ret "")
    (fun e => ret (exn_str e)).

(** ["%s" % x] where [x] may be [None] *)
Definition str_opt (x : option string) : string :=
  match x with Some s => s | None => "None" end.

Definition unxzip (src dest : string) : M string :=
  let cmd_path := get_bin_path C "xz" in
  let cmd := str_opt cmd_path ++ " -k -d " ++ src in
  let '(prefix, suffix) := PosixPath.splitext src in
  ufile <-
    (if String.eqb suffix ".xz" || String.eqb suffix ".lzma" then ret prefix
     else if String.eqb suffix ".txz" || String.eqb suffix ".tlz" then ret (prefix ++ ".tar")
     else fail_json ("xz does not understand suffix " ++ suffix)) ;;
  try_except
    (run_command C cmd ;;;
     ufile_isfile <- isfile ufile ;;
     (if ufile_isfile : bool then ret tt
      else fail_json (src ++ " should have uncompressed to " ++ ufile
                          ++ ", but alas it did not")) ;;;
     move ufile dest ;;;
     ret "")
    (fun e => ret (exn_str e)).

(** The guess of lines 198-204, as a relation: from the two halves
    that [os.path.splitext] makes of the source, the file that [xz] is
    expected to write. *)
Definition predicted (stem suffix ufile : string) : Prop :=
  ((suffix = ".xz" \/ suffix = ".lzma") /\ ufile = stem)
  \/ ((suffix = ".txz" \/ suffix = ".tlz") /\ ufile = stem ++ ".tar").

(** *** [filetype] (lines 217-225) *)

Definition filetype (src : string) : M (Z * string * string) :=
  let cmd_path := get_bin_path C "file" in
  let cmd := str_opt cmd_path ++ " -b -i " ++ src in
  run_command C cmd.

(** *** [copyfile] (lines 228-254) *)

Definition copyfile (src dest : string) (deep_check : bool) : M bool :=
  dest_isfile <- isfile dest ;;
  if dest_isfile : bool then
    nodiff <-
      (if deep_check then filecmp_cmp src dest true
       else
         destsize <- getsize dest ;;
         srcsize <- getsize src ;;
         if negb (destsize =? srcsize)%nat then ret false else ret true) ;;
    if negb nodiff then
      move src dest ;;;
      ret true
    else ret false
  else
    move src dest ;;;
    ret true.

(** *** [main] (lines 257-348) *)

(** Lines 270-307: the parameters, the destination path (completed
    with the derived name when it is a directory) and the source,
    fetched when it is a URL.  Returns [src], [dest], and the two
    halves [fdir], [ffile] of [dest]. *)
Definition main_locate (p : params) : M (string * string * string * string) :=
  let src := expanduser C (p_src p) in
  let dest := expanduser C (p_dest p) in
  let copy := p_copy p in
  let tempdir := "/tmp/" in
  dest_isdir <- isdir dest ;;
  let dest :=
    if dest_isdir : bool
    then PosixPath.join dest (Derive.derive_uncompressed_filename src)
    else dest in
  let '(fdir, ffile) := PosixPath.split dest in
  src_exists <- exists_ src ;;
  src <-
    (if negb src_exists then
       if copy then fail_json ("Source '" ++ src ++ "' failed to transfer")
       else if contains "://" src then
         let package := PosixPath.join tempdir (item 1 (rsplit1 "/" src)) in
         try_except
           (rsp_info <- fetch_url C src ;;
            let '(body, status_code) := rsp_info in
            (if negb (status_code =? 200)%Z
             then fail_json ("Failure downloading " ++ src ++ ", " ++ of_Z status_code)
             else ret tt) ;;;
            open_wb package ;;;
            write package body ;;;
            ret package)
           (fun e => fail_json ("Failure downloading " ++ src ++ ", " ++ exn_str e))
       else fail_json ("Source '" ++ src ++ "' does not exist")
     else ret src) ;;
  ret (src, dest, fdir, ffile).

(** Lines 309-324: the checks on the source and on the directory of
    the destination; returns [tempsrc], the path of the temporary
    file. *)
Definition main_check (src dest fdir ffile : string) : M string :=
  let tempdir := "/tmp/" in
  try_except
    (size <- getsize src ;;
     if (size =? 0)%nat
     then fail_json ("Invalid archive '" ++ src ++ "', the file is 0 bytes")
     else ret tt)
    (fun _ => fail_json ("Source '" ++ src ++ "' not readable")) ;;;
  fdir_isdir <- isdir fdir ;;
  (if negb fdir_isdir
   then fail_json ("Destination '" ++ dest ++ "' is not a directory")
   else ret tt) ;;;
  readable <- access_R_OK C src ;;
  (if negb readable
   then fail_json ("Source '" ++ src ++ "' not readable")
   else ret tt) ;;;
  let tempsrc := PosixPath.join tempdir ffile in
  ret tempsrc.

(** Lines 326-337: detect the type, run the decompressor for it, stop
    on its message. *)
Definition main_unpack (src tempsrc : string) : M unit :=
  ft <- filetype src ;;
  let ftype := ft.1.2 in
  msg <-
    (if contains "gzip" ftype then ungzip src tempsrc
     else if contains "x-bzip2" ftype then unbzip src tempsrc
     else if contains "x-xz" ftype then unxzip src tempsrc
     else fail_json ("Filetype not supported by uncompress module. " ++ ftype)) ;;
  if negb (String.eqb msg "") then fail_json msg else ret tt.

(** A source that [file] reports as gzip or bzip2, with a stream that
    its decoder decodes to [out]. *)
Definition decodes (ftype : string) (data out : list byte) : Prop :=
  (contains "gzip" ftype = true /\ gzip_decode C data = (out, None))
  \/ (contains "gzip" ftype = false /\ contains "x-bzip2" ftype = true
      /\ bz2_decode C data = (out, None)).

(** Lines 338-348: place the file, apply the attributes, report. *)
Definition main_place (tempsrc dest : string) (deep_check : bool) : M unit :=
  changed <- copyfile tempsrc dest deep_check ;;
  changed <-
    try_except
      (set_fs_attributes_if_different C dest changed)
      (fun e =>
         match e with
         | OSError m => fail_json ("Unexpected error when accessing exploded file: " ++ m)
         | OtherError _ => raise e
         end) ;;
  exit_json changed dest.

Definition main (p : params) : M unit :=
  located <- main_locate p ;;
  let '(src, dest, fdir, ffile) := located in
  tempsrc <- main_check src dest fdir ffile ;;
  main_unpack src tempsrc ;;;
  main_place tempsrc dest (p_deep_check p).

(** Lines 277-280 on their own: the destination [main] works with,
    which is the parameter, or the derived name inside it when it is a
    directory. *)
Definition resolved_dest (p : params) (w : world) : string :=
  let src := expanduser C (p_src p) in
  let dest := expanduser C (p_dest p) in
  match stat dest w with
  | Some (Dir _) => PosixPath.join dest (Derive.derive_uncompressed_filename src)
  | _ => dest
  end.

End WithCollaborators.
End Uncompress.

(** ** A small concrete host, to run the module on

    Compressed files are a magic number, the payload, and a closing
    zero byte; [file] recognises the magic numbers; [xz -k -d] writes
    next to its input, refuses unknown suffixes and existing outputs. *)

Module Host.
Import PyStr.

Definition gzip_magic : list byte := [x1f; x8b].
Definition bzip2_magic : list byte := [x42; x5a; x68].
Definition xz_magic : list byte := [xfd; x37; x7a; x58; x5a; x00].

Fixpoint strip_magic (magic data : list byte) : option (list byte) :=
  match magic, data with
  | [], _ => Some data
  | m :: magic', d :: data' =>
      if Byte.eqb m d then strip_magic magic' data' else None
  | _ :: _, [] => None
  end.

(** The payload up to the closing zero byte, and whether it was found. *)
Fixpoint payload (data : list byte) : list byte * bool :=
  match data with
  | [] => ([], false)
  | d :: data' =>
      if Byte.eqb d x00 then ([], true)
      else let '(out, closed) := payload data' in (d :: out, closed)
  end.

Definition decode (magic : list byte) (bad_magic : string) (data : list byte)
    : list byte * option exn :=
  match strip_magic magic data with
  | None => ([], Some (OtherError bad_magic))
  | Some body =>
      let '(out, closed) := payload body in
      (out, if closed : bool then None
            else Some (OtherError
              "Compressed file ended before the end-of-stream marker was reached"))
  end.

Definition newline : string := String (ascii_of_nat 10) "".

Definition has_magic (magic data : list byte) : bool :=
  match strip_magic magic data with Some _ => true | None => false end.

Definition mime (data : list byte) : string :=
  if has_magic gzip_magic data then "application/gzip; charset=binary"
  else if has_magic bzip2_magic data then "application/x-bzip2; charset=binary"
  else if has_magic xz_magic data then "application/x-xz; charset=binary"
  else "text/plain; charset=us-ascii".

Definition host_realpath (p : string) : string :=
  match rstrip_slash p with
  | EmptyString => if String.eqb p "" then "" else "/"
  | q => q
  end.

Definition run_file (path : string) : M (Z * string * string) :=
  fun w =>
    match files w !! host_realpath path with
    | Some (File data _) => (Ret (0%Z, mime data ++ newline, ""), w)
    | Some (Dir _) => (Ret (0%Z, "inode/directory; charset=binary" ++ newline, ""), w)
    | None => (Ret (1%Z, "cannot open `" ++ path ++ "' (No such file or directory)"
                          ++ newline, ""), w)
    end.

Definition run_xz (path : string) : M (Z * string * string) :=
  fun w =>
    let '(stem, suffix) := PosixPath.splitext path in
    let target :=
      if String.eqb suffix ".xz" || String.eqb suffix ".lzma" then Some stem
      else if String.eqb suffix ".txz" || String.eqb suffix ".tlz" then Some (stem ++ ".tar")
      else None in
    match target, files w !! host_realpath path with
    | None, _ =>
        (Ret (2%Z, "", "xz: " ++ path ++ ": Filename has an unknown suffix, skipping"), w)
    | Some out, Some (File data _) =>
        match files w !! host_realpath out, decode xz_magic "File format not recognized" data with
        | Some _, _ => (Ret (1%Z, "", "xz: " ++ out ++ ": File exists"), w)
        | None, (bytes, None) =>
            (Ret (0%Z, "", ""),
             World (<[host_realpath out := File bytes (clock w)]> (files w)) (clock w))
        | None, (_, Some e) => (Ret (1%Z, "", "xz: " ++ path ++ ": " ++ exn_str e), w)
        end
    | Some _, _ => (Ret (1%Z, "", "xz: " ++ path ++ ": No such file or directory"), w)
    end.

Definition host_run_command (cmd : string) : M (Z * string * string) :=
  if startswith "/usr/bin/file -b -i " cmd then run_file (drop 20 cmd)
  else if startswith "/usr/bin/xz -k -d " cmd then run_xz (drop 18 cmd)
  else ret (127%Z, "", "command not found").

Definition host : collaborators :=
  {| expanduser := fun p => p;
     realpath := host_realpath;
     get_bin_path := fun name => Some ("/usr/bin/" ++ name);
     run_command := host_run_command;
     gzip_decode := decode gzip_magic "Not a gzipped file";
     bz2_decode := decode bzip2_magic "Invalid data stream";
     fetch_url := fun _ => ret ([], 404%Z);
     access_R_OK := fun p w =>
       (Ret match files w !! host_realpath p with Some _ => true | None => false end, w);
     set_fs_attributes_if_different := fun _ changed => ret changed |}.

(** The same host, with a URL fetcher that answers 200 with [body]. *)
Definition fetching (body : list byte) : collaborators :=
  {| expanduser := expanduser host;
     realpath := realpath host;
     get_bin_path := get_bin_path host;
     run_command := run_command host;
     gzip_decode := gzip_decode host;
     bz2_decode := bz2_decode host;
     fetch_url := fun _ => ret (body, 200%Z);
     access_R_OK := access_R_OK host;
     set_fs_attributes_if_different := set_fs_attributes_if_different host |}.

(** Some files and worlds. *)
Definition hello : list byte := [x68; x65; x6c; x6c; x6f].
Definition jello : list byte := [x6a; x65; x6c; x6c; x6f].
Definition hello_gz : list byte := (gzip_magic ++ hello ++ [x00])%list.
Definition hello_xz : list byte := (xz_magic ++ hello ++ [x00])%list.
Definition cut_gz : list byte := (gzip_magic ++ [x68; x65])%list.

Definition dirs : gmap string node :=
  <["/" := Dir 4096]> (<["/tmp" := Dir 4096]> (<["/data" := Dir 4096]>
    (<["/opt" := Dir 4096]> ∅))).

(** A temporary file and a destination of the same size, with
    different bytes, last written at the given times. *)
Definition two_files (t_temp t_dest : Z) : world :=
  World (<["/tmp/foo" := File hello t_temp]>
           (<["/opt/foo" := File jello t_dest]> dirs)) 100.

(** A source file at [path] and nothing else but the directories. *)
Definition only (path : string) (data : list byte) : world :=
  World (<[path := File data 10]> dirs) 100.

(** A source file, and a destination that is already there. *)
Definition with_dest (src : string) (sdata : list byte)
    (dest : string) (ddata : list byte) : world :=
  World (<[src := File sdata 10]> (<[dest := File ddata 5]> dirs)) 100.

(** The same files, some time later. *)
Definition later (w : world) : world := at_time (clock w + 100) w.

End Host.

(** * Properties *)

(** ** Facts about the string operations *)

#[global] Arguments String.append !s1 s2 : simpl nomatch.

Module PyStrFacts.
Import PyStr.

Lemma prefix_empty (s : string) : String.prefix "" s = true.
Proof. by destruct s. Qed.

Lemma prefix_char (c1 c2 : ascii) (r : string) :
  String.prefix (String c1 "") (String c2 r) = Ascii.eqb c2 c1.
Proof.
  simpl. destruct (ascii_dec c1 c2) as [->|Hne].
  - by rewrite prefix_empty, Ascii.eqb_refl.
  - symmetry. apply Ascii.eqb_neq. congruence.
Qed.

Lemma prefix_app (p s : string) :
  String.prefix p s = true -> s = p ++ drop (String.length p) s.
Proof.
  revert s. induction p as [|c p IH]; intros s H.
  - by destruct s.
  - destruct s as [|d s]; [done|]. simpl in H.
    destruct (ascii_dec c d) as [->|]; [|done].
    simpl. f_equal. by apply IH.
Qed.

Lemma prefix_app_intro (p s : string) : String.prefix p (p ++ s) = true.
Proof.
  induction p as [|c p IH]; simpl.
  - apply prefix_empty.
  - by destruct (ascii_dec c c).
Qed.

Lemma append_empty_r (s : string) : s ++ "" = s.
Proof. induction s; simpl; congruence. Qed.

Lemma drop_0 (s : string) : drop 0 s = s.
Proof. by destruct s. Qed.

Lemma find_prefix (sub s : string) :
  String.prefix sub s = true -> find sub s = Some 0.
Proof. intros H. destruct s; cbn [find]; by rewrite H. Qed.

Lemma find_cons (sub : string) (c : ascii) (s : string) :
  String.prefix sub (String c s) = false ->
  find sub (String c s) = S <$> find sub s.
Proof. intros H. cbn [find]. by rewrite H. Qed.

(** [sub in s] holds as soon as [sub] occurs after some prefix. *)
Lemma contains_app (pre sub post : string) :
  contains sub (pre ++ sub ++ post) = true.
Proof.
  unfold contains. induction pre as [|c pre IH].
  - change ("" ++ sub ++ post) with (sub ++ post).
    by rewrite find_prefix by apply prefix_app_intro.
  - change (String c pre ++ sub ++ post) with (String c (pre ++ sub ++ post)).
    destruct (String.prefix sub (String c (pre ++ sub ++ post))) eqn:E.
    + by rewrite find_prefix.
    + rewrite find_cons by done. by destruct (find sub (pre ++ sub ++ post)).
Qed.

(** Under the guard [sep in s], [s.split(sep, 1)] has two items. *)
Lemma split1_two (sep s : string) :
  contains sep s = true -> List.length (split1 sep s) = 2.
Proof. unfold contains, split1. by destruct (find sep s). Qed.

Lemma endswith_cons (suf : string) (c : ascii) (r : string) :
  String c r <> suf ->
  endswith suf (String c r) = endswith suf r.
Proof.
  intros Hne. unfold endswith. simpl String.length.
  destruct (Nat.leb_spec (String.length suf) (String.length r)) as [Hle|Hgt].
  - replace (S (String.length r) - String.length suf)
      with (S (String.length r - String.length suf)) by lia.
    replace (String.length suf <=? S (String.length r))%nat with true
      by (symmetry; apply Nat.leb_le; lia).
    done.
  - rewrite andb_false_l.
    destruct (Nat.leb_spec (String.length suf) (S (String.length r))) as [Hle|]; [|done].
    replace (S (String.length r) - String.length suf) with 0 by lia.
    rewrite drop_0. apply String.eqb_neq in Hne. by rewrite Hne.
Qed.

Lemma endswith_refl (s : string) : endswith s s = true.
Proof.
  unfold endswith. rewrite Nat.leb_refl, Nat.sub_diag, drop_0, String.eqb_refl. done.
Qed.

Lemma chop_cons (k : nat) (c : ascii) (r : string) :
  k <= String.length r -> chop k (String c r) = String c (chop k r).
Proof.
  intros Hle. unfold chop. simpl String.length.
  replace (S (String.length r) - k) with (S (String.length r - k)) by lia. done.
Qed.

Lemma endswith_length (suf s : string) :
  endswith suf s = true -> String.length suf <= String.length s.
Proof.
  unfold endswith. intros [H _]%andb_prop. by apply Nat.leb_le.
Qed.

End PyStrFacts.

(** ** [derive_uncompressed_filename] against the specification's wording *)

Module DeriveFacts.
Import PyStr PyStrFacts Derive.

(** What [rfind] of the slash returns, in terms of the last segment. *)
Lemma rfind_slash (s : string) :
  match rfind "/" s with
  | Some i => has_slash s = true /\ drop (S i) s = last_segment s
  | None => has_slash s = false /\ last_segment s = s
  end.
Proof.
  induction s as [|c r IH].
  - done.
  - cbn [rfind has_slash last_segment]. rewrite prefix_char.
    destruct (rfind "/" r) as [i|]; destruct IH as [Hs Hl]; rewrite Hs.
    + rewrite orb_true_r. split; [done|]. exact Hl.
    + rewrite orb_false_r. destruct (Ascii.eqb c "/"); [|done].
      split; [done|]. apply drop_0.
Qed.

Lemma rsplit1_last (s : string) :
  item_last (rsplit1 "/" s) = last_segment s.
Proof.
  unfold rsplit1, item_last. pose proof (rfind_slash s) as H.
  destruct (rfind "/" s) as [i|]; destruct H as [_ H]; cbn [List.last].
  - by rewrite Nat.add_1_r.
  - done.
Qed.

Lemma basename_last_segment (s : string) :
  PosixPath.basename s = last_segment s.
Proof.
  unfold PosixPath.basename, PosixPath.after_sep.
  pose proof (rfind_slash s) as H.
  destruct (rfind "/" s) as [i|]; destruct H as [_ H]; [done|].
  by rewrite drop_0.
Qed.

Lemma last_segment_no_slash (s : string) :
  has_slash s = false -> last_segment s = s.
Proof.
  intros H. pose proof (rfind_slash s) as R.
  destruct (rfind "/" s); destruct R as [R1 R2]; congruence.
Qed.

Lemma find_qmark (s : string) :
  match find "?" s with
  | Some i => take i s = strip_query s
  | None => strip_query s = s
  end.
Proof.
  induction s as [|c r IH].
  - done.
  - cbn [find strip_query]. rewrite prefix_char.
    destruct (Ascii.eqb c "?"); [done|].
    destruct (find "?" r) as [i|]; cbn; congruence.
Qed.

Lemma split1_first (s : string) :
  item 0 (split1 "?" s) = strip_query s.
Proof.
  unfold split1, item. pose proof (find_qmark s) as H.
  destruct (find "?" s); cbn; done.
Qed.

(** The test-and-slice of the source is the suffix stripping of the table. *)
Lemma strip_suffix_endswith (suf s : string) :
  strip_suffix suf s =
    if endswith suf s then Some (chop (String.length suf) s) else None.
Proof.
  induction s as [|c r IH].
  - cbn [strip_suffix]. destruct suf as [|d suf]; [done|].
    cbn. done.
  - cbn [strip_suffix]. destruct (String.eqb_spec (String c r) suf) as [<-|Hne].
    + rewrite endswith_refl. unfold chop. by rewrite Nat.sub_diag.
    + rewrite IH, endswith_cons by done.
      destruct (endswith suf r) eqn:E; [|done].
      by rewrite chop_cons by by apply endswith_length.
Qed.

End DeriveFacts.

Module DeriveUrl.
Import PyStr PyStrFacts Derive DeriveFacts.

Lemma scheme_cases (src : string) :
  starts_with_scheme src = true ->
  exists scheme rest,
    scheme ∈ url_schemes /\ src = scheme ++ "://" ++ rest.
Proof.
  unfold starts_with_scheme, url_schemes. cbn [existsb].
  intros H. repeat (apply orb_prop in H; destruct H as [H|H]); try discriminate;
    apply prefix_app in H;
    match type of H with _ = (?sch ++ _) ++ ?r => exists sch, r end;
    (split; [set_solver | exact H]).
Qed.

(** For a URL, the part after the scheme separator ends in the same
    segment as the whole string, and the separator is found. *)
Lemma url_path_part (src : string) :
  starts_with_scheme src = true ->
  contains "://" src = true
  /\ last_segment (item 1 (split1 "://" src)) = last_segment src.
Proof.
  intros (scheme & rest & Hin & ->)%scheme_cases.
  split; [apply (contains_app scheme "://" rest)|].
  unfold url_schemes in Hin.
  repeat (apply elem_of_cons in Hin; destruct Hin as [->|Hin]);
    [..|by apply elem_of_nil in Hin];
    unfold split1; cbn [String.append find]; cbn [String.prefix];
    cbn; rewrite prefix_empty; cbn; rewrite ?drop_0;
    (destruct (has_slash rest) eqn:E; [done | by apply last_segment_no_slash]).
Qed.

Lemma is_url_scheme (src : string) : is_url src = starts_with_scheme src.
Proof.
  unfold is_url. change (existsb _ url_schemes) with (starts_with_scheme src).
  destruct (starts_with_scheme src) eqn:E; [|apply andb_false_r].
  by destruct (url_path_part src E) as [-> _].
Qed.

(** The name the suffix rules are applied to. *)
Lemma filename_of_source (src : string) :
  (if is_url src
   then item 0 (split1 "?" (item_last (rsplit1 "/" (item 1 (split1 "://" src)))))
   else PosixPath.basename src)
  = (if starts_with_scheme src then strip_query (last_segment src)
     else last_segment src).
Proof.
  rewrite is_url_scheme. destruct (starts_with_scheme src) eqn:E.
  - rewrite split1_first, rsplit1_last. f_equal. by apply url_path_part.
  - apply basename_last_segment.
Qed.

(** The chain of [endswith] tests is the table, read top down. *)
Lemma suffix_chain (filename : string) :
  (if endswith ".gz" filename then chop 3 filename
   else if endswith ".bz2" filename then chop 4 filename
   else if endswith ".xz" filename then chop 3 filename
   else if endswith ".lzma" filename then chop 5 filename
   else if endswith ".txz" filename then chop 4 filename ++ ".tar"
   else if endswith ".tlz" filename then chop 4 filename ++ ".tar"
   else filename)
  = rewrite_with suffix_table filename.
Proof.
  unfold suffix_table. cbn [rewrite_with]. rewrite !strip_suffix_endswith.
  cbn [String.length].
  repeat (match goal with |- context [endswith ?s filename] =>
            destruct (endswith s filename) end;
          [by rewrite ?append_empty_r|]).
  done.
Qed.

Lemma derive_refines_spec (src : string) :
  derive_uncompressed_filename src = spec_derive src.
Proof.
  unfold derive_uncompressed_filename, spec_derive.
  cbv zeta. rewrite filename_of_source. apply suffix_chain.
Qed.

End DeriveUrl.

(** ** The materializer: [copyfile] *)

Module CopyfileFacts.
Import Uncompress.

Section WithCollaborators.
Variable C : collaborators.

Lemma move_onto_file (src dest : string) (w : world) d1 t1 d2 t2 :
  stat C src w = Some (File d1 t1) ->
  stat C dest w = Some (File d2 t2) ->
  move C src dest w = (Ret tt, moved C src dest d1 t1 w).
Proof.
  intros Hs Hd. unfold move, bind, isdir, rename.
  repeat (cbv beta iota; rewrite ?Hs, ?Hd). done.
Qed.

(** [move] never hands back control with the world changed and no
    value: it returns [tt] or raises. *)
Lemma move_result (src dest : string) (w : world) :
  (exists w', move C src dest w = (Ret tt, w'))
  \/ (exists e, move C src dest w = (Raise e, w)).
Proof.
  unfold move, bind, isdir, exists_, rename, raise.
  repeat (match goal with
          | |- context [match stat C ?p w with _ => _ end] =>
              destruct (stat C p w) as [[? ?|?]|]
          | |- context [if parent_isdir C ?p w then _ else _] =>
              destruct (parent_isdir C p w)
          end; cbn); eauto.
Qed.

Lemma copyfile_fast (src dest : string) (w : world) d1 t1 d2 t2 :
  stat C src w = Some (File d1 t1) ->
  stat C dest w = Some (File d2 t2) ->
  copyfile C src dest false w =
    if (List.length d2 =? List.length d1)%nat then (Ret false, w)
    else (Ret true, moved C src dest d1 t1 w).
Proof.
  intros Hs Hd. unfold copyfile, bind, isfile, getsize, ret.
  repeat (cbv beta iota; rewrite ?Hs, ?Hd).
  destruct (List.length d2 =? List.length d1)%nat; cbn [negb]; cbv beta iota; [done|].
  by rewrite (move_onto_file src dest w d1 t1 d2 t2).
Qed.

Lemma copyfile_deep (src dest : string) (w : world) d1 t1 d2 t2 :
  stat C src w = Some (File d1 t1) ->
  stat C dest w = Some (File d2 t2) ->
  copyfile C src dest true w =
    if ((List.length d1 =? List.length d2)%nat && (t1 =? t2)%Z) || bool_decide (d1 = d2)
    then (Ret false, w)
    else (Ret true, moved C src dest d1 t1 w).
Proof.
  intros Hs Hd. unfold copyfile, bind, isfile, filecmp_cmp, ret.
  repeat (cbv beta iota; rewrite ?Hs, ?Hd). cbn [andb].
  destruct (List.length d1 =? List.length d2)%nat eqn:El; cbn [andb negb orb].
  - destruct (t1 =? t2)%Z; cbn [orb]; cbv beta iota; [done|].
    destruct (bool_decide (d1 = d2)); cbn [negb]; cbv beta iota; [done|].
    by rewrite (move_onto_file src dest w d1 t1 d2 t2).
  - rewrite bool_decide_eq_false_2.
    + cbn [negb]. cbv beta iota. by rewrite (move_onto_file src dest w d1 t1 d2 t2).
    + intros ->. by rewrite Nat.eqb_refl in El.
Qed.

(** Whatever [copyfile] does after a [move], it does not return
    [false]. *)
Lemma after_move_not_false (src dest : string) (w w' : world) :
  (let (r0, w1) := move C src dest w in
   match r0 with
   | Ret _ => (Ret true, w1)
   | Raise e => (Raise e, w1)
   | Exit r => (Exit r, w1)
   end) = (Ret false, w') -> False.
Proof.
  destruct (move_result src dest w) as [[w1 ->]|[e ->]]; discriminate.
Qed.

Lemma copyfile_false_inv (src dest : string) (deep_check : bool) (w w' : world) :
  copyfile C src dest deep_check w = (Ret false, w') ->
  w' = w /\ is_Some (stat C src w).
Proof.
  unfold copyfile, bind, isfile, ret. cbv beta iota.
  destruct (stat C dest w) as [[d2 t2|n2]|] eqn:Hd;
    [|intros []%after_move_not_false..].
  destruct deep_check.
  - unfold filecmp_cmp. rewrite Hd.
    destruct (stat C src w) as [[d1 t1|n1]|] eqn:Hs; cbv beta iota;
      [| intros []%after_move_not_false | discriminate].
    repeat (match goal with
            | |- context [if ?b then _ else _] => destruct b
            end; cbn [negb]; cbv beta iota);
      try (intros []%after_move_not_false); intros [= <-]; eauto.
  - unfold getsize. rewrite Hd. cbv beta iota.
    destruct (stat C src w) as [[d1 t1|n1]|] eqn:Hs; cbv beta iota; [| |discriminate].
    all: match goal with
         | |- context [(?a =? ?b)%nat] => destruct (a =? b)%nat
         end; cbn [negb]; cbv beta iota;
         try (intros []%after_move_not_false); intros [= <-]; eauto.
Qed.

(** A file is never different from itself. *)
Lemma copyfile_same_path (p : string) (deep_check : bool) (w : world) d t :
  stat C p w = Some (File d t) ->
  copyfile C p p deep_check w = (Ret false, w).
Proof.
  intros Hp. destruct deep_check.
  - rewrite (copyfile_deep p p w d t d t Hp Hp).
    by rewrite Nat.eqb_refl, Z.eqb_refl.
  - rewrite (copyfile_fast p p w d t d t Hp Hp). by rewrite Nat.eqb_refl.
Qed.

End WithCollaborators.
End CopyfileFacts.

(** ** The orchestrator: [main] *)

Module MainFacts.
Import PyStr PyStrFacts Derive DeriveFacts Uncompress.

(** Case analysis on every step of a block, keeping the branches that
    can return. *)
Ltac walk :=
  repeat (match goal with
          | |- context [let (_, _) := ?x in _] =>
              destruct x as [[?|?|?] ?] eqn:?
          | |- context [match ?x with (_, _) => _ end] =>
              destruct x as [[?|?|?] ?] eqn:?
          | |- context [if ?b then _ else _] => destruct b eqn:?
          | |- context [match ?x with Some _ => _ | None => _ end] =>
              destruct x as [[? ?|?]|] eqn:?
          end; cbv beta iota; try discriminate).

Lemma tmp_split (name : string) :
  has_slash name = false ->
  PosixPath.split ("/tmp/" ++ name) = ("/tmp", name).
Proof.
  intros H. pose proof (rfind_slash name) as R.
  destruct (rfind "/" name) as [i|] eqn:E; destruct R as [R _]; [congruence|].
  unfold PosixPath.split, PosixPath.after_sep. cbn [String.append rfind].
  rewrite E. cbn. rewrite prefix_empty. cbn. by rewrite ?drop_0.
Qed.

Lemma tmp_join (name : string) :
  has_slash name = false ->
  PosixPath.join "/tmp/" name = "/tmp/" ++ name.
Proof.
  intros H. unfold PosixPath.join, startswith.
  destruct name as [|c r]; [done|]. rewrite prefix_char.
  cbn [has_slash] in H. apply orb_false_elim in H as [-> _]. done.
Qed.

Section WithCollaborators.
Variable C : collaborators.

Lemma main_check_tempsrc (src dest fdir ffile tempsrc : string) (w w' : world) :
  main_check C src dest fdir ffile w = (Ret tempsrc, w') ->
  tempsrc = PosixPath.join "/tmp/" ffile.
Proof.
  unfold main_check, bind, try_except, fail_json, ret. cbv beta iota zeta.
  walk. by intros [= <- _].
Qed.

Lemma main_locate_split (p : params) (src dest fdir ffile : string) (w w' : world) :
  main_locate C p w = (Ret (src, dest, fdir, ffile), w') ->
  (fdir, ffile) = PosixPath.split dest.
Proof.
  unfold main_locate, bind, isdir, exists_, ret. cbv beta iota zeta.
  match goal with
  | |- context [PosixPath.split ?d] =>
      generalize d; intros dest0; destruct (PosixPath.split dest0) as [fd ff] eqn:Es
  end.
  walk. all: intros [= _ <- <- <- _]; done.
Qed.

Lemma getsize_world (p : string) (w : world) : (getsize C p w).2 = w.
Proof. unfold getsize. by destruct (stat C p w) as [[? ?|?]|]. Qed.

(** A zero-sized source stops [main_check] at its first test. *)
Lemma main_check_empty (src dest fdir ffile : string) (w : world) :
  (getsize C src w).1 = Ret 0 ->
  main_check C src dest fdir ffile w
  = (Exit (FailJson ("Invalid archive '" ++ src ++ "', the file is 0 bytes")), w).
Proof.
  intros H. pose proof (getsize_world src w) as Hw.
  unfold main_check, bind, try_except. cbv beta iota zeta.
  destruct (getsize C src w) as [r w0]. cbn in H, Hw. by subst.
Qed.

Lemma main_of_blocks (p : params) (src dest fdir ffile : string) (w w1 : world) :
  main_locate C p w = (Ret (src, dest, fdir, ffile), w1) ->
  main C p w =
    (tempsrc <- main_check C src dest fdir ffile ;;
     main_unpack C src tempsrc ;;;
     main_place C tempsrc dest (p_deep_check p)) w1.
Proof. intros H. unfold main at 1, bind at 1. by rewrite H. Qed.

Lemma main_after_check (p : params) (src dest fdir ffile tempsrc : string)
    (w w1 w2 : world) :
  main_locate C p w = (Ret (src, dest, fdir, ffile), w1) ->
  main_check C src dest fdir ffile w1 = (Ret tempsrc, w2) ->
  main C p w =
    (main_unpack C src tempsrc ;;;
     main_place C tempsrc dest (p_deep_check p)) w2.
Proof.
  intros H1 H2. rewrite (main_of_blocks p src dest fdir ffile w w1 H1).
  unfold bind at 1. by rewrite H2.
Qed.

(** An unrecognised type stops [main_unpack] right after [file] ran. *)
Lemma main_unpack_unsupported (src tempsrc : string) (w w1 : world)
    (ft : Z * string * string) :
  filetype C src w = (Ret ft, w1) ->
  contains "gzip" ft.1.2 = false ->
  contains "x-bzip2" ft.1.2 = false ->
  contains "x-xz" ft.1.2 = false ->
  main_unpack C src tempsrc w
  = (Exit (FailJson ("Filetype not supported by uncompress module. " ++ ft.1.2)), w1).
Proof.
  intros Hf Hg Hb Hx. unfold main_unpack, bind at 1. rewrite Hf.
  cbv beta iota zeta. unfold bind. by rewrite Hg, Hb, Hx.
Qed.

Lemma open_wb_writable (p : string) (w : world) :
  writable C p w = true -> open_wb C p w = (Ret tt, written C p [] w).
Proof.
  unfold writable, open_wb.
  destruct (stat C p w) as [[? ?|?]|]; [done | done |]. by intros ->.
Qed.

Lemma stat_written_eq (p : string) (data : list byte) (w : world) :
  stat C p (written C p data w) = Some (File data (clock w)).
Proof. unfold stat, written. cbn. apply lookup_insert_eq. Qed.

Lemma stat_written_ne (p q : string) (data : list byte) (w : world) :
  realpath C p <> realpath C q ->
  stat C q (written C p data w) = stat C q w.
Proof. intros H. unfold stat, written. cbn. by apply lookup_insert_ne. Qed.

Lemma written_written (p : string) (d1 d2 : list byte) (w : world) :
  written C p d2 (written C p d1 w) = written C p d2 w.
Proof. unfold written. cbn. by rewrite insert_insert_eq. Qed.

(** An in-process decompressor on a readable source, a writable and
    distinct temporary path and a stream that decodes: the decoded
    bytes are at the temporary path, and the message is empty. *)
Lemma decompress_in_process (decode : list byte -> list byte * option exn)
    (src dest : string) (w : world) (data out : list byte) (t : Z) :
  stat C src w = Some (File data t) ->
  realpath C dest <> realpath C src ->
  writable C dest w = true ->
  decode data = (out, None) ->
  try_except
    (open_rb C src ;;;
     open_wb C dest ;;;
     copy_decoded C decode src dest ;;;
     ret "")
    (fun e => ret (exn_str e)) w
  = (Ret "", written C dest out w).
Proof.
  intros Hs Hne Hw Hd.
  unfold try_except, bind, open_rb. rewrite Hs. cbv beta iota.
  rewrite (open_wb_writable dest w Hw). cbv beta iota.
  unfold copy_decoded, bind, read.
  rewrite (stat_written_ne dest src [] w Hne), Hs. cbv beta iota. rewrite Hd.
  unfold write. rewrite stat_written_eq. cbv beta iota.
  by rewrite written_written.
Qed.

(** An in-process decompressor writes at its [dest] only: every
    other path holds after it what it held before, whether decoding
    succeeded or not. *)
Lemma decompress_in_process_frame (decode : list byte -> list byte * option exn)
    (src dest q : string) (w : world) :
  realpath C q <> realpath C dest ->
  stat C q
    (try_except
       (open_rb C src ;;;
        open_wb C dest ;;;
        copy_decoded C decode src dest ;;;
        ret "")
       (fun e => ret (exn_str e)) w).2
  = stat C q w.
Proof.
  intros Hne.
  assert (forall data w0, stat C q (written C dest data w0) = stat C q w0) as Hw.
  { intros data w0. apply stat_written_ne. congruence. }
  unfold try_except, bind, open_rb, open_wb, copy_decoded, bind, read, write, ret, raise.
  destruct (stat C src w) as [[ds ts|ns]|]; cbn; [|done..].
  destruct (stat C dest w) as [[dd td|nd]|]; cbn; [|done|].
  2: destruct (parent_isdir C dest w); cbn; [|done].
  all: destruct (stat C src (written C dest [] w)) as [[ds' ts'|ns']|]; cbn;
         rewrite ?Hw; [|done..].
  all: destruct (decode ds') as [out [e|]]; cbn.
  all: destruct (stat C dest (written C dest [] w)) as [[d0 t0|n0]|]; cbn;
         rewrite ?Hw; done.
Qed.

Lemma ungzip_frame (src dest q : string) (w : world) :
  realpath C q <> realpath C dest ->
  stat C q (ungzip C src dest w).2 = stat C q w.
Proof. apply decompress_in_process_frame. Qed.

Lemma unbzip_frame (src dest q : string) (w : world) :
  realpath C q <> realpath C dest ->
  stat C q (unbzip C src dest w).2 = stat C q w.
Proof. apply decompress_in_process_frame. Qed.

End WithCollaborators.
End MainFacts.

(** ** Away from the shared temporary path: convergence and failure *)

Module Convergence.
Import PyStr Uncompress MainFacts.

Section WithCollaborators.
Variable C : collaborators.

Lemma stat_moved_dst (src dst : string) (data : list byte) (t : Z) (w : world) :
  stat C dst (moved C src dst data t w) = Some (File data t).
Proof. unfold stat, moved. cbn. apply lookup_insert_eq. Qed.

Lemma stat_moved_other (src dst q : string) (data : list byte) (t : Z) (w : world) :
  realpath C q <> realpath C src ->
  realpath C q <> realpath C dst ->
  stat C q (moved C src dst data t w) = stat C q w.
Proof.
  intros Hs Hd. unfold stat, moved. cbn.
  rewrite lookup_insert_ne by congruence. by rewrite lookup_delete_ne by congruence.
Qed.

Lemma stat_moved_src (src dst : string) (data : list byte) (t : Z) (w : world) :
  realpath C src <> realpath C dst ->
  stat C src (moved C src dst data t w) = None.
Proof.
  intros Hne. unfold stat, moved. cbn.
  rewrite lookup_insert_ne by congruence. apply lookup_delete_eq.
Qed.

(** Placing a fresh temporary file at a destination that is not there. *)
Lemma copyfile_new (src dest : string) (deep_check : bool) (w : world)
    (data : list byte) (t : Z) :
  stat C src w = Some (File data t) ->
  stat C dest w = None ->
  parent_isdir C dest w = true ->
  copyfile C src dest deep_check w = (Ret true, moved C src dest data t w).
Proof.
  intros Hs Hd Hp. unfold copyfile, bind, isfile. rewrite Hd. cbv beta iota.
  unfold move, bind, isdir. rewrite Hd. cbv beta iota.
  unfold rename. by rewrite Hs, Hd, Hp.
Qed.

(** Comparing a temporary file with a destination of the same bytes. *)
Lemma copyfile_same_bytes (src dest : string) (deep_check : bool) (w : world)
    (data : list byte) (t1 t2 : Z) :
  stat C src w = Some (File data t1) ->
  stat C dest w = Some (File data t2) ->
  copyfile C src dest deep_check w = (Ret false, w).
Proof.
  intros Hs Hd. destruct deep_check.
  - rewrite (CopyfileFacts.copyfile_deep C src dest w data t1 data t2 Hs Hd).
    by rewrite bool_decide_eq_true_2, orb_true_r.
  - rewrite (CopyfileFacts.copyfile_fast C src dest w data t1 data t2 Hs Hd).
    by rewrite Nat.eqb_refl.
Qed.

(** The directory of a path is not a path that holds no directory. *)
Lemma parent_key_ne (p q : string) (w : world) :
  parent_isdir C p w = true ->
  (isdir C q w).1 = Ret false ->
  (PosixPath.split (realpath C p)).1 <> realpath C q.
Proof.
  unfold parent_isdir, isdir, stat. cbn. intros Hp Hq E. rewrite E in Hp.
  destruct (files w !! realpath C q) as [[? ?|?]|]; done.
Qed.

Lemma parent_isdir_written (p q : string) (data : list byte) (w : world) :
  parent_isdir C p w = true ->
  (isdir C q w).1 = Ret false ->
  parent_isdir C p (written C q data w) = true.
Proof.
  intros Hp Hq. pose proof (parent_key_ne p q w Hp Hq) as Hne.
  unfold parent_isdir, written in *. cbn. by rewrite lookup_insert_ne.
Qed.

Lemma parent_isdir_moved (p src dst : string) (data : list byte) (t : Z) (w : world) :
  parent_isdir C p w = true ->
  (isdir C src w).1 = Ret false ->
  (isdir C dst w).1 = Ret false ->
  parent_isdir C p (moved C src dst data t w) = true.
Proof.
  intros Hp Hs Hd. pose proof (parent_key_ne p src w Hp Hs) as Hns.
  pose proof (parent_key_ne p dst w Hp Hd) as Hnd.
  unfold parent_isdir, moved in *. cbn.
  rewrite lookup_insert_ne by done. by rewrite lookup_delete_ne.
Qed.

Lemma parent_isdir_at_time (p : string) (t : Z) (w : world) :
  parent_isdir C p (at_time t w) = parent_isdir C p w.
Proof. done. Qed.

Lemma stat_at_time (p : string) (t : Z) (w : world) :
  stat C p (at_time t w) = stat C p w.
Proof. done. Qed.

Lemma main_unpack_decodes (src tempsrc : string) (w w1 : world)
    (ft : Z * string * string) (data out : list byte) (t : Z) :
  filetype C src w = (Ret ft, w1) ->
  decodes C ft.1.2 data out ->
  stat C src w1 = Some (File data t) ->
  realpath C tempsrc <> realpath C src ->
  writable C tempsrc w1 = true ->
  main_unpack C src tempsrc w = (Ret tt, written C tempsrc out w1).
Proof.
  intros Hf Hdec Hs Hne Hw. unfold main_unpack, bind at 1. rewrite Hf.
  cbv beta iota zeta. destruct Hdec as [[Hg Hd]|(Hg & Hb & Hd)].
  - rewrite Hg. unfold bind, ungzip.
    by rewrite (decompress_in_process C _ src tempsrc w1 data out t Hs Hne Hw Hd).
  - rewrite Hg, Hb. unfold bind, unbzip.
    by rewrite (decompress_in_process C _ src tempsrc w1 data out t Hs Hne Hw Hd).
Qed.

(** Away from the shared temporary path the pipeline converges: with
    source, temporary path and destination three different files, a
    destination that is not there yet, a [file] command that reads the
    source and changes nothing, and a gzip or bzip2 stream that
    decodes, the first run places the decoded bytes and returns [true],
    and a run at any later time on the world it left returns [false]. *)
Lemma main_converges_outside_tmp
    (src tempsrc dest : string) (deep_check : bool) (w : world)
    (ft : Z * string * string) (data out : list byte) (ts t' : Z) :
  (forall w', stat C src w' = Some (File data ts) -> filetype C src w' = (Ret ft, w')) ->
  decodes C ft.1.2 data out ->
  stat C src w = Some (File data ts) ->
  stat C dest w = None ->
  parent_isdir C dest w = true ->
  (isdir C tempsrc w).1 = Ret false ->
  parent_isdir C tempsrc w = true ->
  realpath C tempsrc <> realpath C src ->
  realpath C tempsrc <> realpath C dest ->
  let w1 := moved C tempsrc dest out (clock w) (written C tempsrc out w) in
  (main_unpack C src tempsrc ;;; copyfile C tempsrc dest deep_check) w = (Ret true, w1)
  /\ stat C dest w1 = Some (File out (clock w))
  /\ (main_unpack C src tempsrc ;;; copyfile C tempsrc dest deep_check) (at_time t' w1)
     = (Ret false, written C tempsrc out (at_time t' w1)).
Proof.
  intros Hfile Hdec Hs Hd Hpd Ht Hpt Hts Htd w1.
  assert (realpath C src <> realpath C dest) as Hsd.
  { intros E. unfold stat in Hs, Hd. rewrite E in Hs. congruence. }
  assert (writable C tempsrc w = true) as Hw.
  { unfold writable. unfold isdir in Ht. cbn in Ht.
    destruct (stat C tempsrc w) as [[? ?|?]|]; done. }
  assert (stat C dest (written C tempsrc out w) = None) as Hd1.
  { by rewrite stat_written_ne. }
  assert ((main_unpack C src tempsrc ;;; copyfile C tempsrc dest deep_check) w = (Ret true, w1)) as H1.
  { unfold bind at 1.
    rewrite (main_unpack_decodes src tempsrc w w ft data out ts (Hfile w Hs) Hdec Hs Hts Hw).
    apply copyfile_new; [apply stat_written_eq | done |].
    by apply parent_isdir_written. }
  assert (stat C dest w1 = Some (File out (clock w))) as Hd2 by apply stat_moved_dst.
  split; [done|]. split; [done|].
  assert (stat C src (at_time t' w1) = Some (File data ts)) as Hs2.
  { rewrite stat_at_time. unfold w1.
    rewrite stat_moved_other by congruence. by rewrite stat_written_ne. }
  assert (writable C tempsrc (at_time t' w1) = true) as Hw2.
  { unfold writable. rewrite stat_at_time. unfold w1.
    rewrite stat_moved_src by done. rewrite parent_isdir_at_time.
    apply parent_isdir_moved.
    - by apply parent_isdir_written.
    - unfold isdir. cbn. by rewrite stat_written_eq.
    - unfold isdir. cbn. by rewrite Hd1. }
  unfold bind at 1.
  rewrite (main_unpack_decodes src tempsrc _ _ ft data out ts
             (Hfile _ Hs2) Hdec Hs2 Hts Hw2).
  apply (copyfile_same_bytes tempsrc dest deep_check _ out t' (clock w)).
  - apply stat_written_eq.
  - rewrite stat_written_ne by done. by rewrite stat_at_time.
Qed.

(** Detection and decompression write at the temporary path only,
    unless the xz command is run: for a type with [gzip] or [x-bzip2]
    in it, or with no [x-xz], every other path holds after
    [main_unpack] what it held when [file] had run, however
    [main_unpack] ends. *)
Lemma main_unpack_frame (src tempsrc q : string) (w w1 : world)
    (ft : Z * string * string) :
  filetype C src w = (Ret ft, w1) ->
  contains "gzip" ft.1.2 = true \/ contains "x-bzip2" ft.1.2 = true
    \/ contains "x-xz" ft.1.2 = false ->
  realpath C q <> realpath C tempsrc ->
  stat C q (main_unpack C src tempsrc w).2 = stat C q w1.
Proof.
  intros Hf Hty Hne. unfold main_unpack, bind at 1. rewrite Hf. cbv beta iota zeta.
  assert (forall (m : M string),
             stat C q (m w1).2 = stat C q w1 ->
             stat C q ((msg <- m ;;
                        if negb (String.eqb msg "") then fail_json msg else ret tt) w1).2
             = stat C q w1) as Hk.
  { intros m Hm. unfold bind.
    destruct (m w1) as [[msg| |] w0]; cbn in Hm |- *; [|done..].
    by destruct (negb (String.eqb msg "")). }
  destruct (contains "gzip" ft.1.2) eqn:Eg.
  { apply Hk. by apply ungzip_frame. }
  destruct (contains "x-bzip2" ft.1.2) eqn:Eb.
  { apply Hk. by apply unbzip_frame. }
  destruct Hty as [?|[?|Hx]]; [done..|]. rewrite Hx. by apply Hk.
Qed.

End WithCollaborators.
End Convergence.

(** ** The claims about the filename derivation and the materializer *)

Module Claims.
Import PyStr Derive Uncompress Host.

(** C4.  [derive_uncompressed_filename] takes the last path segment of
    the source string (for a string that starts with a recognized
    scheme and [://], the segment with everything from its first
    question mark onward removed) and rewrites its suffix by the first
    matching row of the table [.gz], [.bz2], [.xz], [.lzma] (stripped),
    [.txz], [.tlz] (replaced by [.tar]), leaving other names as they
    are; the six names of the specification's table come out as
    stated. *)
Theorem derive_uncompressed_filename_spec :
  (forall src, derive_uncompressed_filename src = spec_derive src)
  /\ derive_uncompressed_filename "foo.gz" = "foo"
  /\ derive_uncompressed_filename "archive.tar.gz" = "archive.tar"
  /\ derive_uncompressed_filename "https://example.com/app.bz2" = "app"
  /\ derive_uncompressed_filename
       "https://example.com/download/file.gz?version=1.0&token=abc" = "file"
  /\ derive_uncompressed_filename "pkg.txz" = "pkg.tar"
  /\ derive_uncompressed_filename "README" = "README".
Proof.
  split; [exact DeriveUrl.derive_refines_spec|].
  repeat split; vm_compute; reflexivity.
Qed.

(** The order matters when the query holds a slash: the segment is
    taken first, as in section 4.2 of the specification, so the name
    comes from the query. *)
Example derive_query_with_slash :
  derive_uncompressed_filename "https://example.com/a.gz?next=/b/c.xz" = "c".
Proof. vm_compute. reflexivity. Qed.

(** C5.  With an existing destination file and [deep_check] false,
    [copyfile] compares the sizes only: on equal sizes it returns
    [false] and leaves the world as it is, whatever the bytes are; on
    different sizes it moves the temporary file onto the destination
    and returns [true]: afterwards the destination holds the bytes and
    the modification time of the temporary file, the temporary path
    holds nothing, and every other path holds what it held. *)
Theorem copyfile_fast_compares_sizes
    (C : collaborators) (src dest : string) (w : world)
    (d1 d2 : list byte) (t1 t2 : Z) :
  stat C src w = Some (File d1 t1) ->
  stat C dest w = Some (File d2 t2) ->
  (List.length d1 = List.length d2 ->
   copyfile C src dest false w = (Ret false, w))
  /\ (List.length d1 <> List.length d2 ->
      copyfile C src dest false w = (Ret true, moved C src dest d1 t1 w)
      /\ stat C dest (moved C src dest d1 t1 w) = Some (File d1 t1)
      /\ stat C src (moved C src dest d1 t1 w) = None
      /\ forall q,
           realpath C q <> realpath C src ->
           realpath C q <> realpath C dest ->
           stat C q (moved C src dest d1 t1 w) = stat C q w).
Proof.
  intros Hs Hd. rewrite (CopyfileFacts.copyfile_fast C src dest w d1 t1 d2 t2 Hs Hd).
  split; intros H.
  - by rewrite H, Nat.eqb_refl.
  - assert (realpath C src <> realpath C dest) as Hne.
    { intros E. unfold stat in Hs, Hd. rewrite E, Hd in Hs. congruence. }
    split; [|split; [|split]].
    + destruct (Nat.eqb_spec (List.length d2) (List.length d1)); [congruence | done].
    + apply Convergence.stat_moved_dst.
    + by apply Convergence.stat_moved_src.
    + intros q Hqs Hqd. by apply Convergence.stat_moved_other.
Qed.

Lemma copyfile_fast_compares_sizes_witness :
  copyfile host "/tmp/foo" "/opt/foo" false (two_files 9 7)
  = (Ret false, two_files 9 7)
  /\ (let w := with_dest "/tmp/foo" hello "/opt/foo" cut_gz in
      copyfile host "/tmp/foo" "/opt/foo" false w
      = (Ret true, moved host "/tmp/foo" "/opt/foo" hello 10 w)
      /\ stat host "/opt/foo" (moved host "/tmp/foo" "/opt/foo" hello 10 w)
         = Some (File hello 10)
      /\ stat host "/tmp/foo" (moved host "/tmp/foo" "/opt/foo" hello 10 w) = None
      /\ forall q,
           realpath host q <> realpath host "/tmp/foo" ->
           realpath host q <> realpath host "/opt/foo" ->
           stat host q (moved host "/tmp/foo" "/opt/foo" hello 10 w) = stat host q w).
Proof.
  split.
  - apply (copyfile_fast_compares_sizes host "/tmp/foo" "/opt/foo" (two_files 9 7)
             hello jello 9 7); reflexivity.
  - apply (copyfile_fast_compares_sizes host "/tmp/foo" "/opt/foo"
             (with_dest "/tmp/foo" hello "/opt/foo" cut_gz) hello cut_gz 10 5);
      [reflexivity | reflexivity | discriminate].
Defined.

(** C1, as the code has it.  With an existing destination file and
    [deep_check] true, [copyfile] asks [filecmp.cmp(src, dest,
    shallow=True)]: two files with the same bytes are unchanged; two
    files of the same size and the same modification time are taken
    as unchanged without being read; two files with different bytes
    that differ in size or in modification time are reported changed,
    and the temporary file replaces the destination. *)
Theorem copyfile_deep_check_compares_signature_then_bytes
    (C : collaborators) (src dest : string) (w : world)
    (d1 d2 : list byte) (t1 t2 : Z) :
  stat C src w = Some (File d1 t1) ->
  stat C dest w = Some (File d2 t2) ->
  (d1 = d2 -> copyfile C src dest true w = (Ret false, w))
  /\ (List.length d1 = List.length d2 -> t1 = t2 ->
      copyfile C src dest true w = (Ret false, w))
  /\ (d1 <> d2 -> List.length d1 <> List.length d2 \/ t1 <> t2 ->
      copyfile C src dest true w = (Ret true, moved C src dest d1 t1 w)).
Proof.
  intros Hs Hd. rewrite (CopyfileFacts.copyfile_deep C src dest w d1 t1 d2 t2 Hs Hd).
  split; [|split].
  - intros ->. by rewrite bool_decide_eq_true_2, orb_true_r.
  - intros -> ->. by rewrite Nat.eqb_refl, Z.eqb_refl.
  - intros Hne Hsig. rewrite bool_decide_eq_false_2, orb_false_r by done.
    destruct Hsig as [Hl|Ht].
    + destruct (Nat.eqb_spec (List.length d1) (List.length d2)); [congruence | done].
    + destruct (Z.eqb_spec t1 t2); [congruence|]. by rewrite andb_false_r.
Qed.

Lemma copyfile_deep_check_witness :
  copyfile host "/tmp/foo" "/opt/foo" true (two_files 9 7)
  = (Ret true, moved host "/tmp/foo" "/opt/foo" hello 9 (two_files 9 7)).
Proof.
  apply (copyfile_deep_check_compares_signature_then_bytes
           host "/tmp/foo" "/opt/foo" (two_files 9 7) hello jello 9 7);
    [reflexivity | reflexivity | discriminate | right; discriminate].
Defined.

(** C1 as stated fails: a temporary file and a destination of equal
    size and different bytes, both last written at time 7, are
    reported unchanged under [deep_check], and nothing is moved. *)
Lemma copyfile_deep_check_same_mtime :
  stat host "/tmp/foo" (two_files 7 7) = Some (File hello 7)
  /\ stat host "/opt/foo" (two_files 7 7) = Some (File jello 7)
  /\ List.length hello = List.length jello
  /\ hello <> jello
  /\ copyfile host "/tmp/foo" "/opt/foo" true (two_files 7 7)
     = (Ret false, two_files 7 7).
Proof. repeat split; try reflexivity. discriminate. Qed.

(** C2, as the code has it.  When [copyfile] returns [false] it has
    changed nothing: the world is the one it started in, and the
    temporary file is still at its path. *)
Theorem copyfile_unchanged_leaves_temp
    (C : collaborators) (src dest : string) (deep_check : bool) (w w' : world) :
  copyfile C src dest deep_check w = (Ret false, w') ->
  w' = w /\ is_Some (stat C src w').
Proof.
  intros [-> H]%CopyfileFacts.copyfile_false_inv. done.
Qed.

Lemma copyfile_unchanged_leaves_temp_witness :
  two_files 7 7 = two_files 7 7
  /\ is_Some (stat host "/tmp/foo" (two_files 7 7)).
Proof.
  apply (copyfile_unchanged_leaves_temp host "/tmp/foo" "/opt/foo" false
           (two_files 7 7) (two_files 7 7)).
  reflexivity.
Defined.

(** C2 as stated fails: after a [copyfile] that returns [false], under
    either comparison, the temporary file is still there. *)
Lemma copyfile_unchanged_temp_remains :
  copyfile host "/tmp/foo" "/opt/foo" false (two_files 7 7)
  = (Ret false, two_files 7 7)
  /\ copyfile host "/tmp/foo" "/opt/foo" true (two_files 7 7)
     = (Ret false, two_files 7 7)
  /\ stat host "/tmp/foo" (two_files 7 7) = Some (File hello 7).
Proof. repeat split; reflexivity. Qed.

End Claims.

(** ** The claims about the orchestrator *)

Module MainClaims.
Import PyStr PyStrFacts Derive Uncompress Host MainFacts.

(** C7.  Whenever the source block of [main] (lines 270-307) returns a
    source path, local or just downloaded, whose size is zero, [main]
    fails with the message that the file is 0 bytes, in the world that
    block left: the type of the file is never asked for, and no
    decompressor has run. *)
Theorem empty_source_is_rejected
    (C : collaborators) (p : params) (src dest fdir ffile : string) (w w1 : world) :
  main_locate C p w = (Ret (src, dest, fdir, ffile), w1) ->
  (getsize C src w1).1 = Ret 0 ->
  main C p w
  = (Exit (FailJson ("Invalid archive '" ++ src ++ "', the file is 0 bytes")), w1).
Proof.
  intros Hl Hs. rewrite (main_of_blocks C p src dest fdir ffile w w1 Hl).
  unfold bind at 1. by rewrite (main_check_empty C src dest fdir ffile w1 Hs).
Qed.

Lemma empty_source_is_rejected_witness :
  main host (Params "/data/empty.gz" "/opt/" true false) (only "/data/empty.gz" [])
  = (Exit (FailJson "Invalid archive '/data/empty.gz', the file is 0 bytes"),
     only "/data/empty.gz" [])
  /\ main (fetching []) (Params "https://example.com/app.bz2" "/opt/" false false)
       (World dirs 100)
     = (Exit (FailJson "Invalid archive '/tmp/app.bz2', the file is 0 bytes"),
        written host "/tmp/app.bz2" [] (World dirs 100)).
Proof.
  split.
  - apply (empty_source_is_rejected host _ "/data/empty.gz" "/opt/empty" "/opt" "empty");
      reflexivity.
  - apply (empty_source_is_rejected (fetching []) _ "/tmp/app.bz2" "/opt/app" "/opt" "app"
             (World dirs 100));
      vm_compute; reflexivity.
Defined.

(** C8.  When the checks have passed and the type that [file] reports
    contains none of [gzip], [x-bzip2], [x-xz], [main] fails with a
    message that ends in the reported type, verbatim, in the world the
    [file] command left: no decompressor has run. *)
Theorem unsupported_type_is_named
    (C : collaborators) (p : params) (src dest fdir ffile tempsrc : string)
    (w w1 w2 w3 : world) (ft : Z * string * string) :
  main_locate C p w = (Ret (src, dest, fdir, ffile), w1) ->
  main_check C src dest fdir ffile w1 = (Ret tempsrc, w2) ->
  filetype C src w2 = (Ret ft, w3) ->
  contains "gzip" ft.1.2 = false ->
  contains "x-bzip2" ft.1.2 = false ->
  contains "x-xz" ft.1.2 = false ->
  exists msg,
    main C p w = (Exit (FailJson msg), w3)
    /\ msg = "Filetype not supported by uncompress module. " ++ ft.1.2
    /\ contains ft.1.2 msg = true.
Proof.
  intros Hl Hc Hf Hg Hb Hx. eexists. split; [|split; [reflexivity|]].
  - rewrite (main_after_check C p src dest fdir ffile tempsrc w w1 w2 Hl Hc).
    unfold bind at 1.
    by rewrite (main_unpack_unsupported C src tempsrc w2 w3 ft Hf Hg Hb Hx).
  - rewrite <- (append_empty_r ft.1.2) at 2. apply contains_app.
Qed.

Lemma unsupported_type_is_named_witness :
  exists msg,
    main host (Params "/data/notes" "/opt/notes" true false) (only "/data/notes" hello)
    = (Exit (FailJson msg), only "/data/notes" hello)
    /\ msg = "Filetype not supported by uncompress module. "
             ++ ("text/plain; charset=us-ascii" ++ newline)
    /\ contains ("text/plain; charset=us-ascii" ++ newline) msg = true.
Proof.
  apply (unsupported_type_is_named host _ "/data/notes" "/opt/notes" "/opt" "notes"
           "/tmp/notes" _ (only "/data/notes" hello) (only "/data/notes" hello) _
           (0%Z, "text/plain; charset=us-ascii" ++ newline, ""));
    reflexivity.
Defined.

(** C9.  When the destination is [/tmp/name], with no slash in [name],
    the temporary path that [main] computes is the destination itself;
    once the decompressor has written there, [copyfile] compares the
    file with itself and returns [false] under either comparison,
    whatever was at the destination before, and [main] reports
    [changed = false] unless the attribute step says otherwise. *)
Theorem temp_path_is_destination_in_tmp
    (C : collaborators) (p : params) (src dest fdir ffile tempsrc name : string)
    (w w1 w2 w3 : world) (d : list byte) (t : Z) :
  main_locate C p w = (Ret (src, dest, fdir, ffile), w1) ->
  main_check C src dest fdir ffile w1 = (Ret tempsrc, w2) ->
  dest = "/tmp/" ++ name ->
  has_slash name = false ->
  main_unpack C src tempsrc w2 = (Ret tt, w3) ->
  stat C dest w3 = Some (File d t) ->
  tempsrc = dest
  /\ copyfile C tempsrc dest (p_deep_check p) w3 = (Ret false, w3)
  /\ forall w4,
       set_fs_attributes_if_different C dest false w3 = (Ret false, w4) ->
       main C p w = (Exit (ExitJson false dest), w4).
Proof.
  intros Hl Hc -> Hn Hu Hd.
  assert (tempsrc = "/tmp/" ++ name) as ->.
  { apply main_check_tempsrc in Hc as Ht. apply main_locate_split in Hl as Hs.
    rewrite (tmp_split name Hn) in Hs. injection Hs as _ ->.
    by rewrite (tmp_join name Hn) in Ht. }
  pose proof (CopyfileFacts.copyfile_same_path C _ (p_deep_check p) w3 d t Hd) as Hcp.
  split; [done|]. split; [done|]. intros w4 Ha.
  rewrite (main_after_check C p _ _ _ _ _ w w1 w2 Hl Hc).
  unfold bind at 1. rewrite Hu. cbv beta iota.
  unfold main_place, bind at 1. rewrite Hcp. cbv beta iota.
  unfold bind, try_except. by rewrite Ha.
Qed.

Lemma temp_path_is_destination_in_tmp_witness :
  "/tmp/foo" = "/tmp/foo"
  /\ copyfile host "/tmp/foo" "/tmp/foo" false
       (written host "/tmp/foo" hello (only "/data/foo.gz" hello_gz))
     = (Ret false, written host "/tmp/foo" hello (only "/data/foo.gz" hello_gz))
  /\ forall w4,
       set_fs_attributes_if_different host "/tmp/foo" false
         (written host "/tmp/foo" hello (only "/data/foo.gz" hello_gz))
       = (Ret false, w4) ->
       main host (Params "/data/foo.gz" "/tmp/foo" true false)
         (only "/data/foo.gz" hello_gz)
       = (Exit (ExitJson false "/tmp/foo"), w4).
Proof.
  apply (temp_path_is_destination_in_tmp host
           (Params "/data/foo.gz" "/tmp/foo" true false)
           "/data/foo.gz" "/tmp/foo" "/tmp" "foo" "/tmp/foo" "foo"
           (only "/data/foo.gz" hello_gz) (only "/data/foo.gz" hello_gz)
           (only "/data/foo.gz" hello_gz)
           (written host "/tmp/foo" hello (only "/data/foo.gz" hello_gz))
           hello 100);
    vm_compute; reflexivity.
Defined.

End MainClaims.

(** ** The claims about detection and the decompressors *)

Module UnpackClaims.
Import PyStr PyStrFacts Derive Uncompress Host MainFacts.




End UnpackClaims.

(** ** The shared temporary path: where the pipeline goes wrong *)

Module TmpDefect.
Import PyStr Uncompress Host.

(** C6.  Two runs on the same source and destination.  With the
    destination in [/opt] the first run reports [changed = true] and
    the second, later, [changed = false], under either comparison.
    With the destination [/tmp/foo] of the module's own example (or
    the directory [/tmp/]), the first run creates the file and reports
    [changed = false]. *)
Theorem first_run_into_tmp_reports_unchanged :
  let w := only "/data/foo.gz" hello_gz in
  let placed := moved host "/tmp/foo" "/opt/foo" hello 100 (written host "/tmp/foo" hello w) in
  (forall deep_check,
      main host (Params "/data/foo.gz" "/opt/foo" true deep_check) w
      = (Exit (ExitJson true "/opt/foo"), placed)
      /\ main host (Params "/data/foo.gz" "/opt/foo" true deep_check) (later placed)
         = (Exit (ExitJson false "/opt/foo"), written host "/tmp/foo" hello (later placed)))
  /\ stat host "/tmp/foo" w = None
  /\ (forall deep_check,
      main host (Params "/data/foo.gz" "/tmp/foo" true deep_check) w
      = (Exit (ExitJson false "/tmp/foo"), written host "/tmp/foo" hello w)
      /\ main host (Params "/data/foo.gz" "/tmp/" true deep_check) w
         = (Exit (ExitJson false "/tmp/foo"), written host "/tmp/foo" hello w))
  /\ stat host "/tmp/foo" (written host "/tmp/foo" hello w) = Some (File hello 100).
Proof.
  cbv zeta. split; [|split; [|split]].
  - intros []; split; vm_compute; reflexivity.
  - reflexivity.
  - intros []; split; vm_compute; reflexivity.
  - reflexivity.
Qed.

(** C10.  A run that fails in the decompressor.  With the destination
    in [/opt] the file there is as it was; with the destination
    [/tmp/foo] the decompressor has written onto the destination
    itself, and the failed run leaves the cut output in place of the
    old file. *)
Theorem failed_run_into_tmp_overwrites_destination :
  let msg := "Compressed file ended before the end-of-stream marker was reached" in
  let safe := with_dest "/data/foo.gz" cut_gz "/opt/foo" hello in
  let hit := with_dest "/data/foo.gz" cut_gz "/tmp/foo" hello in
  (exists w', main host (Params "/data/foo.gz" "/opt/foo" true false) safe
              = (Exit (FailJson msg), w')
              /\ stat host "/opt/foo" w' = stat host "/opt/foo" safe)
  /\ stat host "/tmp/foo" hit = Some (File hello 5)
  /\ exists w', main host (Params "/data/foo.gz" "/tmp/foo" true false) hit
                = (Exit (FailJson msg), w')
                /\ stat host "/tmp/foo" w' = Some (File [x68; x65] 100).
Proof.
  cbv zeta. split; [|split]; [eexists; split | | eexists; split];
    vm_compute; reflexivity.
Qed.

End TmpDefect.

(** * Further properties of the module *)

(** ** The derived filename *)

Module DeriveExtras.
Import PyStr PyStrFacts Derive DeriveFacts.

Lemma has_slash_append (a b : string) :
  has_slash (a ++ b) = has_slash a || has_slash b.
Proof.
  induction a as [|c a IH]; [done|].
  change (String c a ++ b) with (String c (a ++ b)). cbn [has_slash].
  by rewrite IH, orb_assoc.
Qed.

Lemma has_slash_last_segment (s : string) : has_slash (last_segment s) = false.
Proof.
  induction s as [|c r IH]; [done|]. cbn [last_segment].
  destruct (has_slash r) eqn:Er; [done|].
  destruct (Ascii.eqb c "/") eqn:Ec; [done|]. cbn [has_slash]. by rewrite Ec, Er.
Qed.

Lemma has_slash_strip_query (s : string) :
  has_slash s = false -> has_slash (strip_query s) = false.
Proof.
  induction s as [|c r IH]; [done|]. cbn [has_slash strip_query].
  intros [Hc Hr]%orb_false_elim. destruct (Ascii.eqb c "?"); [done|].
  cbn [has_slash]. by rewrite Hc, IH.
Qed.

Lemma strip_suffix_app (suf s stem : string) :
  strip_suffix suf s = Some stem -> s = stem ++ suf.
Proof.
  revert stem. induction s as [|c r IH]; intros stem; cbn [strip_suffix].
  - destruct (String.eqb_spec "" suf) as [<-|]; [by intros [= <-] | done].
  - destruct (String.eqb_spec (String c r) suf) as [<-|]; [by intros [= <-]|].
    destruct (strip_suffix suf r) as [stem'|]; [|done].
    intros [= <-]. by rewrite (IH stem' eq_refl).
Qed.

Lemma has_slash_rewrite (table : list (string * string)) (name : string) :
  Forall (fun row => has_slash row.2 = false) table ->
  has_slash name = false ->
  has_slash (rewrite_with table name) = false.
Proof.
  intros Ht Hn. induction Ht as [|[suf repl] rest Hrow _ IH]; [done|].
  cbn [rewrite_with]. destruct (strip_suffix suf name) as [stem|] eqn:E; [|done].
  apply strip_suffix_app in E. rewrite E, has_slash_append in Hn.
  apply orb_false_elim in Hn as [Hs _]. rewrite has_slash_append, Hs. exact Hrow.
Qed.

Lemma derive_has_no_slash (src : string) :
  has_slash (derive_uncompressed_filename src) = false.
Proof.
  rewrite DeriveUrl.derive_refines_spec. unfold spec_derive.
  apply has_slash_rewrite.
  - unfold suffix_table. repeat constructor.
  - destruct (starts_with_scheme src).
    + apply has_slash_strip_query, has_slash_last_segment.
    + apply has_slash_last_segment.
Qed.

(** [endswith] and [chop] on a name built from a stem and a tail. *)
Lemma endswith_app_intro (stem tail : string) : endswith tail (stem ++ tail) = true.
Proof.
  induction stem as [|c r IH]; [apply endswith_refl|].
  change (String c r ++ tail) with (String c (r ++ tail)).
  destruct (String.eqb_spec (String c (r ++ tail)) tail) as [E|Hne].
  - rewrite E. apply endswith_refl.
  - by rewrite endswith_cons.
Qed.

Lemma endswith_app_other (suf stem tail : string) :
  endswith tail suf = false ->
  endswith suf (stem ++ tail) = endswith suf tail.
Proof.
  intros Hts. induction stem as [|c r IH]; [done|].
  change (String c r ++ tail) with (String c (r ++ tail)).
  rewrite endswith_cons; [done|].
  intros E. rewrite <- E in Hts.
  change (String c (r ++ tail)) with (String c r ++ tail) in Hts.
  by rewrite endswith_app_intro in Hts.
Qed.

Lemma length_append (a b : string) :
  String.length (a ++ b) = String.length a + String.length b.
Proof.
  induction a as [|c a IH]; [done|].
  change (String c a ++ b) with (String c (a ++ b)). cbn [String.length]. by rewrite IH.
Qed.

Lemma take_append (a b : string) : take (String.length a) (a ++ b) = a.
Proof.
  induction a as [|c a IH]; [by destruct b|].
  change (String c a ++ b) with (String c (a ++ b)). cbn. by rewrite IH.
Qed.

Lemma chop_app (stem tail : string) : chop (String.length tail) (stem ++ tail) = stem.
Proof.
  unfold chop. rewrite length_append.
  replace (String.length stem + String.length tail - String.length tail)
    with (String.length stem) by lia.
  apply take_append.
Qed.

Lemma strip_suffix_same (stem tail : string) :
  strip_suffix tail (stem ++ tail) = Some stem.
Proof. by rewrite strip_suffix_endswith, endswith_app_intro, chop_app. Qed.

Lemma strip_suffix_other (suf stem tail : string) :
  endswith tail suf = false ->
  endswith suf tail = false ->
  strip_suffix suf (stem ++ tail) = None.
Proof.
  intros H1 H2. by rewrite strip_suffix_endswith, endswith_app_other, H2.
Qed.

(** A name that ends in a suffix of the table is rewritten by the row
    of that suffix, whatever the stem is: no other row applies. *)
Lemma rewrite_row (stem suf repl : string) :
  (suf, repl) ∈ suffix_table ->
  rewrite_with suffix_table (stem ++ suf) = stem ++ repl.
Proof.
  unfold suffix_table. intros Hin.
  repeat (apply elem_of_cons in Hin as [[= -> ->]|Hin]);
    [..|by apply elem_of_nil in Hin];
    cbn [rewrite_with];
    rewrite ?(strip_suffix_other _ stem) by (vm_compute; reflexivity);
    by rewrite strip_suffix_same.
Qed.

(** The name that the suffix rules of the source are applied to. *)
Lemma filename_is_basename (src : string) :
  (if is_url src
   then item 0 (split1 "?" (item_last (rsplit1 "/" (item 1 (split1 "://" src)))))
   else PosixPath.basename src)
  = (if is_url src then item 0 (split1 "?" (PosixPath.basename src))
     else PosixPath.basename src).
Proof.
  rewrite DeriveUrl.filename_of_source, DeriveUrl.is_url_scheme.
  destruct (starts_with_scheme src).
  - by rewrite split1_first, basename_last_segment.
  - by rewrite basename_last_segment.
Qed.

Lemma derive_of_name (src stem suf repl : string) :
  (if is_url src then item 0 (split1 "?" (PosixPath.basename src))
   else PosixPath.basename src) = stem ++ suf ->
  (suf, repl) ∈ suffix_table ->
  derive_uncompressed_filename src = stem ++ repl.
Proof.
  intros Hname Hrow. unfold derive_uncompressed_filename. cbv zeta.
  rewrite filename_is_basename, Hname, DeriveUrl.suffix_chain.
  by apply rewrite_row.
Qed.

(** X1.  The derived filename never contains a slash, whatever the
    source string is. *)
Theorem derived_name_has_no_slash (src : string) :
  has_slash (derive_uncompressed_filename src) = false.
Proof. apply derive_has_no_slash. Qed.

(** X2.  When the name the rules are applied to (the last segment of
    the source, cut at its first question mark for a URL) is a stem
    followed by a suffix of the table, the derived filename is the stem
    followed by the replacement of that row: exactly one suffix is
    rewritten, and no other row interferes. *)
Theorem derive_rewrites_one_suffix (src stem suf repl : string) :
  (if is_url src then item 0 (split1 "?" (PosixPath.basename src))
   else PosixPath.basename src) = stem ++ suf ->
  (suf, repl) ∈ suffix_table ->
  derive_uncompressed_filename src = stem ++ repl.
Proof. apply derive_of_name. Qed.

Lemma derive_rewrites_one_suffix_witness :
  derive_uncompressed_filename "ftp://mirror.example.org/pub/data.tar.tlz?mirror=2"
  = "data.tar" ++ ".tar".
Proof.
  apply (derive_rewrites_one_suffix _ "data.tar" ".tlz" ".tar").
  - vm_compute. reflexivity.
  - unfold suffix_table. set_solver.
Defined.

End DeriveExtras.

(** ** The decompressors *)

Module DecompressExtras.
Import PyStr PyStrFacts Uncompress Host MainFacts.

Section WithCollaborators.
Variable C : collaborators.

Lemma in_process_returns (decode : list byte -> list byte * option exn)
    (src dest : string) (w : world) :
  exists msg w', in_process C decode src dest w = (Ret msg, w').
Proof.
  unfold in_process, try_except, bind, open_rb, open_wb, copy_decoded, bind, read, write,
    ret, raise.
  destruct (stat C src w) as [[ds ts|ns]|]; cbn; [|eauto..].
  destruct (stat C dest w) as [[dd td|nd]|]; cbn; [|eauto|].
  2: destruct (parent_isdir C dest w); cbn; [|eauto].
  all: destruct (stat C src (written C dest [] w)) as [[ds' ts'|ns']|]; cbn; [|eauto..].
  all: destruct (decode ds') as [out [e|]]; cbn.
  all: destruct (stat C dest (written C dest [] w)) as [[d0 t0|n0]|]; cbn; eauto.
Qed.

Lemma in_process_fails (decode : list byte -> list byte * option exn)
    (src dest : string) (w : world) (data out : list byte) (t : Z) (e : exn) :
  stat C src w = Some (File data t) ->
  realpath C dest <> realpath C src ->
  writable C dest w = true ->
  decode data = (out, Some e) ->
  in_process C decode src dest w = (Ret (exn_str e), written C dest out w).
Proof.
  intros Hs Hne Hw Hd.
  unfold in_process, try_except, bind, open_rb. rewrite Hs. cbv beta iota.
  rewrite (open_wb_writable C dest w Hw). cbv beta iota.
  unfold copy_decoded, bind, read.
  rewrite (stat_written_ne C dest src [] w Hne), Hs. cbv beta iota. rewrite Hd.
  unfold write. rewrite stat_written_eq. cbv beta iota.
  by rewrite written_written.
Qed.

Lemma in_process_missing (decode : list byte -> list byte * option exn)
    (src dest : string) (w : world) :
  stat C src w = None ->
  in_process C decode src dest w = (Ret (exn_str (enoent src)), w).
Proof.
  intros Hs. unfold in_process, try_except, bind, open_rb. by rewrite Hs.
Qed.

Lemma in_process_onto_itself (decode : list byte -> list byte * option exn)
    (src dest : string) (w : world) (data : list byte) (t : Z) :
  stat C src w = Some (File data t) ->
  realpath C dest = realpath C src ->
  in_process C decode src dest w
  = (Ret match (decode []).2 with Some e => exn_str e | None => "" end,
     written C dest (decode []).1 w).
Proof.
  intros Hs Heq.
  assert (stat C dest w = Some (File data t)) as Hd by (unfold stat in *; by rewrite Heq).
  assert (forall d w0, stat C src (written C dest d w0) = Some (File d (clock w0))) as Hsw.
  { intros d w0. unfold stat. rewrite <- Heq. apply stat_written_eq. }
  unfold in_process, try_except, bind, open_rb. rewrite Hs. cbv beta iota.
  unfold open_wb. rewrite Hd. cbv beta iota.
  unfold copy_decoded, bind, read. rewrite Hsw. cbv beta iota.
  destruct (decode []) as [out err]. unfold write. rewrite stat_written_eq.
  cbv beta iota. rewrite written_written. cbn [fst snd app].
  by destruct err.
Qed.

(** X3.  [ungzip] and [unbzip] never raise and never leave the module:
    whatever the files and the stream are, they return a message. *)
Theorem in_process_decompressors_return (src dest : string) (w : world) :
  (exists msg w', ungzip C src dest w = (Ret msg, w'))
  /\ (exists msg w', unbzip C src dest w = (Ret msg, w')).
Proof. split; apply in_process_returns. Qed.

(** X4.  A stream that breaks off: when the decoder delivers [out] and
    then raises [e], [ungzip] (and [unbzip]) return the text of [e],
    and the bytes delivered so far stay at the destination path. *)
Theorem broken_stream_leaves_partial_output
    (src dest : string) (w : world) (data out : list byte) (t : Z) (e : exn) :
  stat C src w = Some (File data t) ->
  realpath C dest <> realpath C src ->
  writable C dest w = true ->
  (gzip_decode C data = (out, Some e) ->
   ungzip C src dest w = (Ret (exn_str e), written C dest out w))
  /\ (bz2_decode C data = (out, Some e) ->
      unbzip C src dest w = (Ret (exn_str e), written C dest out w)).
Proof. intros Hs Hne Hw. split; intros Hd; by apply (in_process_fails _ _ _ _ data out t). Qed.

(** X5.  A source that is not there: [ungzip] and [unbzip] return the
    text of the error, which is not empty, and touch nothing; the
    destination is neither created nor truncated. *)
Theorem missing_source_changes_nothing (src dest : string) (w : world) :
  stat C src w = None ->
  exists msg,
    msg <> ""
    /\ ungzip C src dest w = (Ret msg, w)
    /\ unbzip C src dest w = (Ret msg, w).
Proof.
  intros Hs. exists (exn_str (enoent src)). split; [done|].
  split; by apply in_process_missing.
Qed.

(** X6.  Source and destination the same file: the destination is
    opened for writing, and so emptied, before the first byte of the
    source is read; the decoder runs on the empty input, and the bytes
    of the source are lost. *)
Theorem decompress_onto_itself_loses_source
    (src dest : string) (w : world) (data : list byte) (t : Z) :
  stat C src w = Some (File data t) ->
  realpath C dest = realpath C src ->
  ungzip C src dest w
  = (Ret match (gzip_decode C []).2 with Some e => exn_str e | None => "" end,
     written C dest (gzip_decode C []).1 w)
  /\ unbzip C src dest w
     = (Ret match (bz2_decode C []).2 with Some e => exn_str e | None => "" end,
        written C dest (bz2_decode C []).1 w).
Proof. intros Hs Heq. split; by apply (in_process_onto_itself _ _ _ _ data t). Qed.

End WithCollaborators.

Lemma broken_stream_leaves_partial_output_witness :
  ungzip host "/data/foo.gz" "/tmp/foo" (only "/data/foo.gz" cut_gz)
  = (Ret "Compressed file ended before the end-of-stream marker was reached",
     written host "/tmp/foo" [x68; x65] (only "/data/foo.gz" cut_gz)).
Proof.
  apply (proj1 (broken_stream_leaves_partial_output host "/data/foo.gz" "/tmp/foo"
                  (only "/data/foo.gz" cut_gz) cut_gz [x68; x65] 10
                  (OtherError "Compressed file ended before the end-of-stream marker was reached")
                  eq_refl ltac:(discriminate) eq_refl)).
  reflexivity.
Defined.

Lemma missing_source_changes_nothing_witness :
  exists msg,
    msg <> ""
    /\ ungzip host "/data/gone.gz" "/opt/foo" (with_dest "/data/foo.gz" hello_gz "/opt/foo" jello)
       = (Ret msg, with_dest "/data/foo.gz" hello_gz "/opt/foo" jello)
    /\ unbzip host "/data/gone.gz" "/opt/foo" (with_dest "/data/foo.gz" hello_gz "/opt/foo" jello)
       = (Ret msg, with_dest "/data/foo.gz" hello_gz "/opt/foo" jello).
Proof.
  apply (missing_source_changes_nothing host "/data/gone.gz" "/opt/foo"). reflexivity.
Defined.

Lemma decompress_onto_itself_loses_source_witness :
  ungzip host "/tmp/foo" "/tmp/foo/" (only "/tmp/foo" hello_gz)
  = (Ret "Not a gzipped file", written host "/tmp/foo" [] (only "/tmp/foo" hello_gz))
  /\ unbzip host "/tmp/foo" "/tmp/foo/" (only "/tmp/foo" hello_gz)
     = (Ret "Invalid data stream", written host "/tmp/foo" [] (only "/tmp/foo" hello_gz)).
Proof.
  apply (decompress_onto_itself_loses_source host "/tmp/foo" "/tmp/foo/"
           (only "/tmp/foo" hello_gz) hello_gz 10); reflexivity.
Defined.

End DecompressExtras.

(** ** The xz decompressor *)

Module XzExtras.
Import PyStr PyStrFacts Uncompress Host MainFacts.

Section WithCollaborators.
Variable C : collaborators.

Lemma move_onto (src dest : string) (w : world) (d : list byte) (t : Z) :
  stat C src w = Some (File d t) ->
  (isdir C dest w).1 = Ret false ->
  writable C dest w = true ->
  move C src dest w = (Ret tt, moved C src dest d t w).
Proof.
  unfold isdir, writable, move, bind, rename. cbn. intros Hs Hd Hw.
  destruct (stat C dest w) as [[dd td|nd]|] eqn:E; cbv beta iota; rewrite ?Hs, ?E;
    [done | done |]. by rewrite Hw.
Qed.

Lemma unxzip_runs (src dest stem suffix ufile : string) :
  PosixPath.splitext src = (stem, suffix) ->
  predicted stem suffix ufile ->
  unxzip C src dest =
    try_except
      (run_command C (str_opt (get_bin_path C "xz") ++ " -k -d " ++ src) ;;;
       ufile_isfile <- isfile C ufile ;;
       (if ufile_isfile : bool then ret tt
        else fail_json (src ++ " should have uncompressed to " ++ ufile
                            ++ ", but alas it did not")) ;;;
       move C ufile dest ;;;
       ret "")
      (fun e => ret (exn_str e)).
Proof.
  intros Hsp Hp. unfold unxzip. rewrite Hsp.
  destruct Hp as [[[-> | ->] ->]|[[-> | ->] ->]]; reflexivity.
Qed.

(** X7.  When the extension of the source is one [unxzip] knows and
    the predicted file is a regular file once the [xz] command has
    returned, that file is moved to the destination and the message is
    empty, whatever the command returned: its return code and output
    are not looked at. *)
Theorem xz_output_is_moved
    (src dest stem suffix ufile : string) (w w1 : world)
    (r : Z * string * string) (d : list byte) (t : Z) :
  PosixPath.splitext src = (stem, suffix) ->
  predicted stem suffix ufile ->
  run_command C (str_opt (get_bin_path C "xz") ++ " -k -d " ++ src) w = (Ret r, w1) ->
  stat C ufile w1 = Some (File d t) ->
  (isdir C dest w1).1 = Ret false ->
  writable C dest w1 = true ->
  unxzip C src dest w = (Ret "", moved C ufile dest d t w1).
Proof.
  intros Hsp Hp Hr Hu Hd Hw. rewrite (unxzip_runs src dest stem suffix ufile Hsp Hp).
  unfold try_except, bind at 1. rewrite Hr. cbv beta iota.
  unfold bind at 1, isfile. rewrite Hu. cbv beta iota.
  unfold bind at 1, ret at 1. cbv beta iota. unfold bind.
  by rewrite (move_onto ufile dest w1 d t Hu Hd Hw).
Qed.

(** X8.  When the predicted file is not there after the [xz] command
    has returned, [unxzip] leaves through [fail_json] with a message
    naming the source and the predicted file; the handler around it
    does not turn this into a returned message. *)
Theorem xz_output_missing_fails
    (src dest stem suffix ufile : string) (w w1 : world) (r : Z * string * string) :
  PosixPath.splitext src = (stem, suffix) ->
  predicted stem suffix ufile ->
  run_command C (str_opt (get_bin_path C "xz") ++ " -k -d " ++ src) w = (Ret r, w1) ->
  (isfile C ufile w1).1 = Ret false ->
  unxzip C src dest w
  = (Exit (FailJson (src ++ " should have uncompressed to " ++ ufile
                         ++ ", but alas it did not")), w1).
Proof.
  intros Hsp Hp Hr Hu. rewrite (unxzip_runs src dest stem suffix ufile Hsp Hp).
  unfold try_except, bind at 1. rewrite Hr. cbv beta iota.
  unfold isfile in Hu. cbn in Hu. unfold bind at 1, isfile.
  destruct (stat C ufile w1) as [[? ?|?]|]; [done|..]; reflexivity.
Qed.


End WithCollaborators.

(** The [xz] of the host refuses to overwrite: with a file already at
    the predicted path it returns 1 and writes nothing, and [unxzip]
    moves the file that was there. *)
Lemma xz_output_is_moved_witness :
  unxzip host "/data/payload.xz" "/tmp/payload"
    (with_dest "/data/payload.xz" hello_xz "/data/payload" jello)
  = (Ret "", moved host "/data/payload" "/tmp/payload" jello 5
               (with_dest "/data/payload.xz" hello_xz "/data/payload" jello)).
Proof.
  apply (xz_output_is_moved host "/data/payload.xz" "/tmp/payload" "/data/payload" ".xz"
           "/data/payload" _ (with_dest "/data/payload.xz" hello_xz "/data/payload" jello)
           (1%Z, "", "xz: /data/payload: File exists") jello 5);
    try reflexivity.
  left. split; [by left | reflexivity].
Defined.

Lemma xz_output_missing_fails_witness :
  unxzip host "/data/notes.xz" "/tmp/notes" (only "/data/notes.xz" hello)
  = (Exit (FailJson
       "/data/notes.xz should have uncompressed to /data/notes, but alas it did not"),
     only "/data/notes.xz" hello).
Proof.
  apply (xz_output_missing_fails host "/data/notes.xz" "/tmp/notes" "/data/notes" ".xz"
           "/data/notes" _ (only "/data/notes.xz" hello)
           (1%Z, "", "xz: /data/notes.xz: File format not recognized"));
    try reflexivity.
  left. split; [by left | reflexivity].
Defined.

End XzExtras.

(** ** The materializer, beyond the comparison *)

Module CopyfileExtras.
Import PyStr PyStrFacts Uncompress Host.

Section WithCollaborators.
Variable C : collaborators.

(** X10.  A destination that is not there: the temporary file is moved
    to it, with its bytes and modification time, and [copyfile] returns
    [true], under either comparison. *)
Theorem copyfile_places_new_file
    (src dest : string) (deep_check : bool) (w : world) (data : list byte) (t : Z) :
  stat C src w = Some (File data t) ->
  stat C dest w = None ->
  parent_isdir C dest w = true ->
  copyfile C src dest deep_check w = (Ret true, moved C src dest data t w).
Proof. apply Convergence.copyfile_new. Qed.

(** X11.  A temporary file that is not there: [copyfile] raises, under
    either comparison and whatever is at the destination, and changes
    nothing. *)
Theorem copyfile_without_temp_raises
    (src dest : string) (deep_check : bool) (w : world) :
  stat C src w = None ->
  exists e, copyfile C src dest deep_check w = (Raise e, w).
Proof.
  intros Hs.
  assert (forall dst, exists e, rename C src dst w = (Raise e, w)) as Hr.
  { intros dst. unfold rename. rewrite Hs. eauto. }
  assert (exists e, move C src dest w = (Raise e, w)) as [em Hm].
  { unfold move, bind, isdir, exists_, raise.
    destruct (stat C dest w) as [[? ?|?]|]; cbv beta iota; [apply Hr | | apply Hr].
    destruct (stat C (PosixPath.join dest (PosixPath.basename src)) w); cbv beta iota;
      [eauto | apply Hr]. }
  unfold copyfile, bind, isfile.
  destruct (stat C dest w) as [[dd td|nd]|] eqn:Hd; cbv beta iota;
    [| rewrite Hm; eauto..].
  destruct deep_check.
  - unfold filecmp_cmp. rewrite Hs. eauto.
  - unfold getsize. rewrite Hd, Hs. eauto.
Qed.

(** X12.  A destination that is a directory: the temporary file is
    moved into it under its own name and [copyfile] returns [true];
    when that name is taken there, [copyfile] raises and changes
    nothing. *)
Theorem copyfile_into_directory
    (src dest : string) (deep_check : bool) (w : world)
    (data : list byte) (t : Z) (n : nat) :
  stat C src w = Some (File data t) ->
  stat C dest w = Some (Dir n) ->
  let real_dst := PosixPath.join dest (PosixPath.basename src) in
  (stat C real_dst w = None -> parent_isdir C real_dst w = true ->
   copyfile C src dest deep_check w = (Ret true, moved C src real_dst data t w))
  /\ (is_Some (stat C real_dst w) ->
      copyfile C src dest deep_check w
      = (Raise (OSError ("Destination path '" ++ real_dst ++ "' already exists")), w)).
Proof.
  intros Hs Hd real_dst. subst real_dst.
  split; [intros Hr Hp | intros [x Hr]];
    unfold copyfile, move, bind, isfile, isdir, exists_, raise, rename, ret;
    repeat (cbv beta iota zeta; rewrite ?Hd, ?Hr, ?Hs, ?Hp); reflexivity.
Qed.

End WithCollaborators.

Lemma copyfile_places_new_file_witness :
  copyfile host "/tmp/foo" "/data/foo" true (two_files 9 7)
  = (Ret true, moved host "/tmp/foo" "/data/foo" hello 9 (two_files 9 7)).
Proof.
  apply (copyfile_places_new_file host "/tmp/foo" "/data/foo" true (two_files 9 7) hello 9);
    reflexivity.
Defined.

Lemma copyfile_without_temp_raises_witness :
  exists e, copyfile host "/tmp/bar" "/opt/foo" true (two_files 9 7)
            = (Raise e, two_files 9 7).
Proof.
  apply (copyfile_without_temp_raises host "/tmp/bar" "/opt/foo" true (two_files 9 7)).
  reflexivity.
Defined.

Lemma copyfile_into_directory_witness :
  copyfile host "/tmp/foo" "/data" false (two_files 9 7)
  = (Ret true, moved host "/tmp/foo" "/data/foo" hello 9 (two_files 9 7)).
Proof.
  apply (proj1 (copyfile_into_directory host "/tmp/foo" "/data" false (two_files 9 7)
                  hello 9 4096 eq_refl eq_refl));
    reflexivity.
Defined.

End CopyfileExtras.

(** ** The orchestrator: the ways in and the ways out *)

Module MainExtras.
Import PyStr PyStrFacts Derive DeriveFacts Uncompress Host MainFacts.

Lemma no_slash_no_separator (s : string) :
  has_slash s = false -> find "://" s = None.
Proof.
  induction s as [|c r IH]; [done|]. cbn [has_slash].
  intros [Hc Hr]%orb_false_elim.
  assert (String.prefix "://" (String c r) = false) as Hp.
  { destruct r as [|c' r'].
    - cbn [String.prefix]. by destruct (ascii_dec ":" c).
    - cbn [has_slash] in Hr. apply orb_false_elim in Hr as [Hc' _].
      cbn [String.prefix]. destruct (ascii_dec ":" c); [|done].
      destruct (ascii_dec "/" c') as [<-|]; done. }
  by rewrite (find_cons _ _ _ Hp), (IH Hr).
Qed.

Lemma separator_has_slash (s : string) :
  contains "://" s = true -> has_slash s = true.
Proof.
  unfold contains. intros H. destruct (has_slash s) eqn:E; [done|].
  by rewrite (no_slash_no_separator s E) in H.
Qed.

(** The name of the downloaded file: what follows the last slash of
    the URL. *)
Lemma package_name (src : string) :
  contains "://" src = true ->
  PosixPath.join "/tmp/" (item 1 (rsplit1 "/" src)) = "/tmp/" ++ PosixPath.basename src.
Proof.
  intros H%separator_has_slash. rewrite basename_last_segment.
  assert (item 1 (rsplit1 "/" src) = last_segment src) as ->.
  { unfold rsplit1, item. pose proof (rfind_slash src) as R.
    destruct (rfind "/" src) as [i|]; destruct R as [R1 R2]; [|congruence].
    cbn [nth]. by rewrite Nat.add_1_r. }
  apply tmp_join, DeriveExtras.has_slash_last_segment.
Qed.

Lemma last_segment_after_slash (x name : string) :
  has_slash name = false -> last_segment (x ++ "/" ++ name) = name.
Proof.
  intros Hn. induction x as [|c x IH].
  - change ("" ++ "/" ++ name) with (String "/" name). cbn [last_segment]. by rewrite Hn.
  - change (String c x ++ "/" ++ name) with (String c (x ++ "/" ++ name)).
    cbn [last_segment]. rewrite DeriveExtras.has_slash_append. cbn [String.append has_slash].
    cbn. by rewrite orb_true_r.
Qed.

Lemma append_assoc (a b c : string) : (a ++ b) ++ c = a ++ b ++ c.
Proof.
  induction a as [|x a IH]; [done|].
  change ((String x a ++ b) ++ c) with (String x ((a ++ b) ++ c)). by rewrite IH.
Qed.

(** A name without a slash, joined to a directory, is the last segment
    of the result. *)
Lemma basename_join (d name : string) :
  has_slash name = false ->
  PosixPath.basename (PosixPath.join d name) = name.
Proof.
  intros Hn. rewrite basename_last_segment. unfold PosixPath.join, startswith.
  assert (String.prefix "/" name = false) as ->.
  { destruct name as [|c r]; [done|]. rewrite prefix_char. cbn [has_slash] in Hn.
    by apply orb_false_elim in Hn as [-> _]. }
  destruct (String.eqb_spec d "") as [->|Hd]; cbn [orb].
  - by apply last_segment_no_slash.
  - destruct (endswith "/" d) eqn:E.
    + pose proof (strip_suffix_endswith "/" d) as Hs. rewrite E in Hs.
      apply DeriveExtras.strip_suffix_app in Hs. rewrite Hs, append_assoc.
      by apply last_segment_after_slash.
    + by apply last_segment_after_slash.
Qed.

Lemma split_tail (p : string) : (PosixPath.split p).2 = PosixPath.basename p.
Proof. done. Qed.

Section WithCollaborators.
Variable C : collaborators.

(** The source block for a source that is there. *)
Lemma main_locate_found (p : params) (w : world) :
  is_Some (stat C (expanduser C (p_src p)) w) ->
  main_locate C p w
  = (Ret (expanduser C (p_src p), resolved_dest C p w,
          (PosixPath.split (resolved_dest C p w)).1,
          (PosixPath.split (resolved_dest C p w)).2), w).
Proof.
  intros [x Hs]. unfold main_locate, resolved_dest, bind, isdir, exists_, ret.
  cbv beta iota zeta.
  destruct (stat C (expanduser C (p_dest p)) w) as [[? ?|?]|]; cbv beta iota;
    match goal with |- context [PosixPath.split ?d] => destruct (PosixPath.split d) end;
    by rewrite Hs.
Qed.

(** The source block for a source that is not there: what is left of
    it is the branch on [copy] and on the scheme separator. *)
Lemma main_locate_absent (p : params) (w : world) :
  stat C (expanduser C (p_src p)) w = None ->
  main_locate C p w =
    (let src := expanduser C (p_src p) in
     src' <-
       (if p_copy p then fail_json ("Source '" ++ src ++ "' failed to transfer")
        else if contains "://" src then
          let package := PosixPath.join "/tmp/" (item 1 (rsplit1 "/" src)) in
          try_except
            (rsp_info <- fetch_url C src ;;
             let '(body, status_code) := rsp_info in
             (if negb (status_code =? 200)%Z
              then fail_json ("Failure downloading " ++ src ++ ", " ++ of_Z status_code)
              else ret tt) ;;;
             open_wb C package ;;;
             write C package body ;;;
             ret package)
            (fun e => fail_json ("Failure downloading " ++ src ++ ", " ++ exn_str e))
        else fail_json ("Source '" ++ src ++ "' does not exist")) ;;
     ret (src', resolved_dest C p w,
          (PosixPath.split (resolved_dest C p w)).1,
          (PosixPath.split (resolved_dest C p w)).2)) w.
Proof.
  intros Hs. unfold main_locate, resolved_dest, bind at 1, isdir.
  cbv beta iota zeta.
  destruct (stat C (expanduser C (p_dest p)) w) as [[? ?|?]|]; cbv beta iota;
    match goal with |- context [PosixPath.split ?d] => destruct (PosixPath.split d) end;
    unfold bind at 1, exists_; rewrite Hs; reflexivity.
Qed.

Lemma main_stops_in_locate (p : params) (w w' : world) (r : result) :
  main_locate C p w = (Exit r, w') -> main C p w = (Exit r, w').
Proof. intros H. unfold main, bind at 1. by rewrite H. Qed.

(** X13.  A source that is not on the host: with [copy] set, [main]
    fails saying that the source failed to transfer; without it, and
    with no [://] in the source, it fails saying that the source does
    not exist.  Nothing is changed. *)
Theorem missing_source_is_reported (p : params) (w : world) :
  stat C (expanduser C (p_src p)) w = None ->
  (p_copy p = true ->
   main C p w
   = (Exit (FailJson ("Source '" ++ expanduser C (p_src p) ++ "' failed to transfer")), w))
  /\ (p_copy p = false ->
      contains "://" (expanduser C (p_src p)) = false ->
      main C p w
      = (Exit (FailJson ("Source '" ++ expanduser C (p_src p) ++ "' does not exist")), w)).
Proof.
  intros Hs. split.
  - intros Hc. apply main_stops_in_locate. rewrite (main_locate_absent p w Hs).
    cbv zeta. unfold bind. by rewrite Hc.
  - intros Hc Hu. apply main_stops_in_locate. rewrite (main_locate_absent p w Hs).
    cbv zeta. unfold bind. by rewrite Hc, Hu.
Qed.

(** X14.  A download that fails.  A status other than 200 ends [main]
    with the status in the message, before anything is written; the
    handler around the download does not replace that message.  An
    exception of the fetch ends [main] with the text of the exception. *)
Theorem failed_download_is_reported (p : params) (w w1 : world) :
  stat C (expanduser C (p_src p)) w = None ->
  p_copy p = false ->
  contains "://" (expanduser C (p_src p)) = true ->
  (forall body status,
      fetch_url C (expanduser C (p_src p)) w = (Ret (body, status), w1) ->
      status <> 200%Z ->
      main C p w
      = (Exit (FailJson ("Failure downloading " ++ expanduser C (p_src p) ++ ", "
                           ++ of_Z status)), w1))
  /\ (forall e,
      fetch_url C (expanduser C (p_src p)) w = (Raise e, w1) ->
      main C p w
      = (Exit (FailJson ("Failure downloading " ++ expanduser C (p_src p) ++ ", "
                           ++ exn_str e)), w1)).
Proof.
  intros Hs Hc Hu. split.
  - intros body status Hf Hne. apply main_stops_in_locate.
    rewrite (main_locate_absent p w Hs). cbv zeta. unfold bind at 1. rewrite Hc, Hu.
    unfold try_except, bind at 1. rewrite Hf. cbv beta iota.
    unfold bind at 1. apply Z.eqb_neq in Hne. by rewrite Hne.
  - intros e Hf. apply main_stops_in_locate.
    rewrite (main_locate_absent p w Hs). cbv zeta. unfold bind at 1. rewrite Hc, Hu.
    unfold try_except, bind at 1. by rewrite Hf.
Qed.

(** X15.  A download that succeeds: the body is written to [/tmp/]
    followed by everything after the last slash of the URL, query
    string included, and that file is the source from then on. *)
Theorem download_is_saved_under_url_name
    (p : params) (w w1 : world) (body : list byte) :
  stat C (expanduser C (p_src p)) w = None ->
  p_copy p = false ->
  contains "://" (expanduser C (p_src p)) = true ->
  fetch_url C (expanduser C (p_src p)) w = (Ret (body, 200%Z), w1) ->
  let package := "/tmp/" ++ PosixPath.basename (expanduser C (p_src p)) in
  writable C package w1 = true ->
  main_locate C p w
  = (Ret (package, resolved_dest C p w,
          (PosixPath.split (resolved_dest C p w)).1,
          (PosixPath.split (resolved_dest C p w)).2),
     written C package body w1).
Proof.
  intros Hs Hc Hu Hf package Hw. rewrite (main_locate_absent p w Hs). cbv zeta.
  unfold bind at 1. rewrite Hc, Hu, (package_name _ Hu). fold package.
  unfold try_except, bind at 1. rewrite Hf. cbv beta iota.
  unfold bind at 1. cbn [Z.eqb Pos.eqb negb]. unfold ret at 1. cbv beta iota.
  unfold bind at 1. rewrite (open_wb_writable C package w1 Hw). cbv beta iota.
  unfold bind at 1, write. rewrite stat_written_eq. cbv beta iota.
  by rewrite written_written.
Qed.

(** X16.  After a source that is there and not empty, the directory of
    the destination is checked, then the permission to read the
    source: a destination whose directory is not one ends [main]
    naming the destination, an unreadable source ends it naming the
    source, both before the type of the file is asked for. *)
Theorem destination_then_readability
    (p : params) (src dest fdir ffile : string) (w w1 : world) (n : nat) :
  main_locate C p w = (Ret (src, dest, fdir, ffile), w1) ->
  (getsize C src w1).1 = Ret (S n) ->
  ((isdir C fdir w1).1 = Ret false ->
   main C p w = (Exit (FailJson ("Destination '" ++ dest ++ "' is not a directory")), w1))
  /\ (forall w2,
      (isdir C fdir w1).1 = Ret true ->
      access_R_OK C src w1 = (Ret false, w2) ->
      main C p w = (Exit (FailJson ("Source '" ++ src ++ "' not readable")), w2)).
Proof.
  intros Hl Hs. rewrite (main_of_blocks C p src dest fdir ffile w w1 Hl).
  pose proof (getsize_world C src w1) as Hw.
  assert (forall (k : unit -> M string),
             (try_except
                (size <- getsize C src ;;
                 if (size =? 0)%nat
                 then fail_json ("Invalid archive '" ++ src ++ "', the file is 0 bytes")
                 else ret tt)
                (fun _ => fail_json ("Source '" ++ src ++ "' not readable")) ;;; k tt) w1
             = k tt w1) as Hsize.
  { intros k. unfold bind at 1, try_except, bind at 1.
    destruct (getsize C src w1) as [r w0]. cbn in Hs, Hw. by subst. }
  unfold isdir. cbn [fst]. split.
  - intros Hd. unfold bind at 1, main_check. cbv zeta.
    rewrite (Hsize (fun _ => _)). unfold bind at 1, isdir.
    destruct (stat C fdir w1) as [[? ?|?]|]; [reflexivity | done | reflexivity].
  - intros w2 Hd Ha. unfold bind at 1, main_check. cbv zeta.
    rewrite (Hsize (fun _ => _)). unfold bind at 1, isdir.
    destruct (stat C fdir w1) as [[? ?|?]|]; [done | | done].
    cbv beta iota. unfold bind at 1, ret at 1. cbv beta iota. cbn [negb].
    unfold bind at 1. by rewrite Ha.
Qed.

(** X17.  A destination that is a directory: [main] goes on with the
    directory joined to the name derived from the source, the file
    part of that path is the derived name, and the temporary path that
    the checks of [main] return for it is [/tmp/] followed by the
    derived name. *)
Theorem directory_destination_takes_derived_name (p : params) (w : world) (n : nat) :
  is_Some (stat C (expanduser C (p_src p)) w) ->
  stat C (expanduser C (p_dest p)) w = Some (Dir n) ->
  let src := expanduser C (p_src p) in
  let name := derive_uncompressed_filename src in
  let dest := PosixPath.join (expanduser C (p_dest p)) name in
  main_locate C p w = (Ret (src, dest, (PosixPath.split dest).1, name), w)
  /\ forall tempsrc w2,
       main_check C src dest (PosixPath.split dest).1 name w = (Ret tempsrc, w2) ->
       tempsrc = "/tmp/" ++ name.
Proof.
  intros Hs Hd src name dest.
  pose proof (DeriveExtras.derive_has_no_slash src) as Hn.
  fold name in Hn. split.
  - rewrite (main_locate_found p w Hs). unfold resolved_dest. cbv zeta. rewrite Hd.
    fold src. fold name. fold dest. rewrite (split_tail dest). unfold dest.
    by rewrite (basename_join _ name Hn).
  - intros tempsrc w2 Hc. apply main_check_tempsrc in Hc. rewrite Hc.
    by apply tmp_join.
Qed.

End WithCollaborators.

Lemma missing_source_is_reported_witness :
  (true = true ->
   main host (Params "/data/foo.gz" "/opt/foo" true false) (World dirs 100)
   = (Exit (FailJson "Source '/data/foo.gz' failed to transfer"), World dirs 100))
  /\ (true = false ->
      contains "://" "/data/foo.gz" = false ->
      main host (Params "/data/foo.gz" "/opt/foo" true false) (World dirs 100)
      = (Exit (FailJson "Source '/data/foo.gz' does not exist"), World dirs 100)).
Proof.
  apply (missing_source_is_reported host (Params "/data/foo.gz" "/opt/foo" true false)
           (World dirs 100)).
  reflexivity.
Defined.

Lemma failed_download_is_reported_witness :
  main host (Params "https://example.com/app.bz2" "/opt/" false false) (World dirs 100)
  = (Exit (FailJson "Failure downloading https://example.com/app.bz2, 404"),
     World dirs 100).
Proof.
  apply (proj1 (failed_download_is_reported host
                  (Params "https://example.com/app.bz2" "/opt/" false false)
                  (World dirs 100) (World dirs 100) eq_refl eq_refl eq_refl) [] 404%Z);
    [reflexivity | discriminate].
Defined.

Lemma download_is_saved_under_url_name_witness :
  main_locate (fetching hello_gz)
    (Params "https://example.com/get/app.gz?token=abc" "/opt/" false false) (World dirs 100)
  = (Ret ("/tmp/app.gz?token=abc", "/opt/app", "/opt", "app"),
     written host "/tmp/app.gz?token=abc" hello_gz (World dirs 100)).
Proof.
  apply (download_is_saved_under_url_name (fetching hello_gz)
           (Params "https://example.com/get/app.gz?token=abc" "/opt/" false false)
           (World dirs 100) (World dirs 100) hello_gz);
    reflexivity.
Defined.

Lemma destination_then_readability_witness :
  main host (Params "/data/foo.gz" "/srv/www/foo" true false) (only "/data/foo.gz" hello_gz)
  = (Exit (FailJson "Destination '/srv/www/foo' is not a directory"),
     only "/data/foo.gz" hello_gz).
Proof.
  apply (proj1 (destination_then_readability host
                  (Params "/data/foo.gz" "/srv/www/foo" true false)
                  "/data/foo.gz" "/srv/www/foo" "/srv/www" "foo"
                  (only "/data/foo.gz" hello_gz) (only "/data/foo.gz" hello_gz) 7
                  eq_refl eq_refl));
    reflexivity.
Defined.

Lemma directory_destination_takes_derived_name_witness :
  main_locate host (Params "/data/archive.tar.gz" "/opt/" true false)
    (only "/data/archive.tar.gz" hello_gz)
  = (Ret ("/data/archive.tar.gz", "/opt/archive.tar", "/opt", "archive.tar"),
     only "/data/archive.tar.gz" hello_gz)
  /\ main_check host "/data/archive.tar.gz" "/opt/archive.tar" "/opt" "archive.tar"
       (only "/data/archive.tar.gz" hello_gz)
     = (Ret "/tmp/archive.tar", only "/data/archive.tar.gz" hello_gz)
  /\ "/tmp/archive.tar" = "/tmp/" ++ "archive.tar".
Proof.
  pose proof (directory_destination_takes_derived_name host
                (Params "/data/archive.tar.gz" "/opt/" true false)
                (only "/data/archive.tar.gz" hello_gz) 4096
                (ex_intro _ (File hello_gz 10) eq_refl) eq_refl) as [Hl Ht].
  split; [exact Hl|]. split; [reflexivity|].
  apply (Ht "/tmp/archive.tar" (only "/data/archive.tar.gz" hello_gz)).
  reflexivity.
Defined.

End MainExtras.

(** ** Whole runs *)

Module RunExtras.
Import PyStr PyStrFacts Derive Uncompress Host MainFacts.

Section WithCollaborators.
Variable C : collaborators.

(** X18.  A run that goes through, for a gzip or bzip2 source and a
    destination that is not there yet: when the temporary path is
    neither the source nor the destination, the destination holds the
    bytes the decoder delivered, the temporary file is gone, and
    [main] reports what the attribute step makes of [changed = true]. *)
Theorem successful_run_places_decoded_bytes
    (p : params) (src dest fdir ffile tempsrc : string) (w w1 w2 w3 w5 : world)
    (ft : Z * string * string) (data out : list byte) (ts : Z) (c : bool) :
  main_locate C p w = (Ret (src, dest, fdir, ffile), w1) ->
  main_check C src dest fdir ffile w1 = (Ret tempsrc, w2) ->
  filetype C src w2 = (Ret ft, w3) ->
  decodes C ft.1.2 data out ->
  stat C src w3 = Some (File data ts) ->
  stat C dest w3 = None ->
  parent_isdir C dest w3 = true ->
  (isdir C tempsrc w3).1 = Ret false ->
  writable C tempsrc w3 = true ->
  realpath C tempsrc <> realpath C src ->
  realpath C tempsrc <> realpath C dest ->
  let w4 := moved C tempsrc dest out (clock w3) (written C tempsrc out w3) in
  set_fs_attributes_if_different C dest true w4 = (Ret c, w5) ->
  main C p w = (Exit (ExitJson c dest), w5)
  /\ stat C dest w4 = Some (File out (clock w3))
  /\ stat C tempsrc w4 = None.
Proof.
  intros Hl Hc Hf Hdec Hs Hd Hpd Ht Hw Hts Htd w4 Ha.
  split; [|split; [apply Convergence.stat_moved_dst | by apply Convergence.stat_moved_src]].
  rewrite (main_after_check C p src dest fdir ffile tempsrc w w1 w2 Hl Hc).
  unfold bind at 1.
  rewrite (Convergence.main_unpack_decodes C src tempsrc w2 w3 ft data out ts
             Hf Hdec Hs Hts Hw).
  unfold main_place, bind at 1.
  rewrite (Convergence.copyfile_new C tempsrc dest (p_deep_check p)
             (written C tempsrc out w3) out (clock w3)).
  - fold w4. unfold bind, try_except. by rewrite Ha.
  - apply stat_written_eq.
  - by rewrite stat_written_ne.
  - by apply Convergence.parent_isdir_written.
Qed.

(** X19.  A gzip or bzip2 stream that breaks off after [out], with
    exception [e]: only the text of [e] tells [main] that it failed.
    With a text that is not empty the run ends with that text as its
    message; with an empty text the step returns as on success, and
    the cut output goes on to [copyfile]. *)
Theorem exception_text_decides
    (src tempsrc : string) (w w1 : world) (ft : Z * string * string)
    (data out : list byte) (t : Z) (e : exn) :
  filetype C src w = (Ret ft, w1) ->
  stat C src w1 = Some (File data t) ->
  realpath C tempsrc <> realpath C src ->
  writable C tempsrc w1 = true ->
  (contains "gzip" ft.1.2 = true /\ gzip_decode C data = (out, Some e))
  \/ (contains "gzip" ft.1.2 = false /\ contains "x-bzip2" ft.1.2 = true
      /\ bz2_decode C data = (out, Some e)) ->
  (exn_str e <> "" ->
   main_unpack C src tempsrc w = (Exit (FailJson (exn_str e)), written C tempsrc out w1))
  /\ (exn_str e = "" ->
      main_unpack C src tempsrc w = (Ret tt, written C tempsrc out w1)).
Proof.
  intros Hf Hs Hne Hw Hdec.
  assert (main_unpack C src tempsrc w
          = (if negb (String.eqb (exn_str e) "") then fail_json (exn_str e) else ret tt)
              (written C tempsrc out w1)) as ->.
  { unfold main_unpack, bind at 1. rewrite Hf. cbv beta iota zeta.
    destruct Hdec as [[Hg Hd]|(Hg & Hb & Hd)].
    - rewrite Hg. unfold bind.
      change (ungzip C src tempsrc) with (in_process C (gzip_decode C) src tempsrc).
      by rewrite (DecompressExtras.in_process_fails C _ src tempsrc w1 data out t e
                    Hs Hne Hw Hd).
    - rewrite Hg, Hb. unfold bind.
      change (unbzip C src tempsrc) with (in_process C (bz2_decode C) src tempsrc).
      by rewrite (DecompressExtras.in_process_fails C _ src tempsrc w1 data out t e
                    Hs Hne Hw Hd). }
  split.
  - intros H. apply String.eqb_neq in H. by rewrite H.
  - intros ->. reflexivity.
Qed.

(** X20.  Two runs away from [/tmp]: with source, temporary path and
    destination three different files, a destination that is not there
    yet, a [file] command that only reads, and a gzip or bzip2 stream
    that decodes, detection, decompression and [copyfile] return [true]
    the first time and [false] at any later time; the second time the
    decompressed copy stays behind at the temporary path. *)
Theorem second_run_reports_unchanged
    (src tempsrc dest : string) (deep_check : bool) (w : world)
    (ft : Z * string * string) (data out : list byte) (ts t' : Z) :
  (forall w', stat C src w' = Some (File data ts) -> filetype C src w' = (Ret ft, w')) ->
  decodes C ft.1.2 data out ->
  stat C src w = Some (File data ts) ->
  stat C dest w = None ->
  parent_isdir C dest w = true ->
  (isdir C tempsrc w).1 = Ret false ->
  parent_isdir C tempsrc w = true ->
  realpath C tempsrc <> realpath C src ->
  realpath C tempsrc <> realpath C dest ->
  let w1 := moved C tempsrc dest out (clock w) (written C tempsrc out w) in
  (main_unpack C src tempsrc ;;; copyfile C tempsrc dest deep_check) w = (Ret true, w1)
  /\ stat C dest w1 = Some (File out (clock w))
  /\ (main_unpack C src tempsrc ;;; copyfile C tempsrc dest deep_check) (at_time t' w1)
     = (Ret false, written C tempsrc out (at_time t' w1)).
Proof. apply Convergence.main_converges_outside_tmp. Qed.

(** X21.  Unless the xz command is run, detection and decompression
    write at the temporary path only: for a type with [gzip] or
    [x-bzip2] in it, or without [x-xz], every other path holds after
    [main_unpack] what it held when [file] had run, however
    [main_unpack] ends. *)
Theorem unpack_writes_temp_only
    (src tempsrc q : string) (w w1 : world) (ft : Z * string * string) :
  filetype C src w = (Ret ft, w1) ->
  contains "gzip" ft.1.2 = true \/ contains "x-bzip2" ft.1.2 = true
    \/ contains "x-xz" ft.1.2 = false ->
  realpath C q <> realpath C tempsrc ->
  stat C q (main_unpack C src tempsrc w).2 = stat C q w1.
Proof. apply Convergence.main_unpack_frame. Qed.

End WithCollaborators.

(** What the [file] command of the host says of a gzip file. *)
Lemma host_file_gzip (path : string) (data : list byte) (t : Z) (w : world) :
  has_magic gzip_magic data = true ->
  stat host path w = Some (File data t) ->
  filetype host path w = (Ret (0%Z, "application/gzip; charset=binary" ++ newline, ""), w).
Proof.
  intros Hm Hs. unfold filetype. cbn [get_bin_path host str_opt run_command].
  unfold host_run_command, startswith.
  change (String.prefix "/usr/bin/file -b -i " (("/usr/bin/" ++ "file") ++ " -b -i " ++ path))
    with (String.prefix "" path).
  rewrite prefix_empty.
  change (drop 20 (("/usr/bin/" ++ "file") ++ " -b -i " ++ path)) with (drop 0 path).
  rewrite drop_0. unfold run_file. unfold stat in Hs. cbn [realpath host] in Hs.
  rewrite Hs. unfold mime. by rewrite Hm.
Qed.

Lemma successful_run_places_decoded_bytes_witness :
  main host (Params "/data/foo.gz" "/opt/" true false) (only "/data/foo.gz" hello_gz)
  = (Exit (ExitJson true "/opt/foo"),
     moved host "/tmp/foo" "/opt/foo" hello 100
       (written host "/tmp/foo" hello (only "/data/foo.gz" hello_gz)))
  /\ stat host "/opt/foo"
       (moved host "/tmp/foo" "/opt/foo" hello 100
          (written host "/tmp/foo" hello (only "/data/foo.gz" hello_gz)))
     = Some (File hello 100)
  /\ stat host "/tmp/foo"
       (moved host "/tmp/foo" "/opt/foo" hello 100
          (written host "/tmp/foo" hello (only "/data/foo.gz" hello_gz)))
     = None.
Proof.
  apply (successful_run_places_decoded_bytes host
           (Params "/data/foo.gz" "/opt/" true false)
           "/data/foo.gz" "/opt/foo" "/opt" "foo" "/tmp/foo"
           (only "/data/foo.gz" hello_gz) (only "/data/foo.gz" hello_gz)
           (only "/data/foo.gz" hello_gz) (only "/data/foo.gz" hello_gz) _
           (0%Z, "application/gzip; charset=binary" ++ newline, "")
           hello_gz hello 10 true);
    try reflexivity; try discriminate.
  left. split; reflexivity.
Defined.

Lemma exception_text_decides_witness :
  main_unpack host "/data/foo.gz" "/tmp/foo" (only "/data/foo.gz" cut_gz)
  = (Exit (FailJson "Compressed file ended before the end-of-stream marker was reached"),
     written host "/tmp/foo" [x68; x65] (only "/data/foo.gz" cut_gz)).
Proof.
  apply (proj1 (exception_text_decides host "/data/foo.gz" "/tmp/foo"
                  (only "/data/foo.gz" cut_gz) (only "/data/foo.gz" cut_gz)
                  (0%Z, "application/gzip; charset=binary" ++ newline, "")
                  cut_gz [x68; x65] 10
                  (OtherError
                     "Compressed file ended before the end-of-stream marker was reached")
                  eq_refl eq_refl ltac:(discriminate) eq_refl
                  (or_introl (conj eq_refl eq_refl)))).
  discriminate.
Defined.

Lemma second_run_reports_unchanged_witness :
  let w := only "/data/foo.gz" hello_gz in
  let w1 := moved host "/tmp/foo" "/opt/foo" hello 100 (written host "/tmp/foo" hello w) in
  (main_unpack host "/data/foo.gz" "/tmp/foo" ;;; copyfile host "/tmp/foo" "/opt/foo" true) w
  = (Ret true, w1)
  /\ stat host "/opt/foo" w1 = Some (File hello 100)
  /\ (main_unpack host "/data/foo.gz" "/tmp/foo" ;;; copyfile host "/tmp/foo" "/opt/foo" true)
       (at_time 500 w1)
     = (Ret false, written host "/tmp/foo" hello (at_time 500 w1)).
Proof.
  apply (second_run_reports_unchanged host "/data/foo.gz" "/tmp/foo" "/opt/foo" true
           (only "/data/foo.gz" hello_gz)
           (0%Z, "application/gzip; charset=binary" ++ newline, "")
           hello_gz hello 10 500);
    try reflexivity; try discriminate.
  - intros w' Hs. by apply (host_file_gzip _ hello_gz 10).
  - left. split; reflexivity.
Defined.

Lemma unpack_writes_temp_only_witness :
  stat host "/opt/foo"
    (main_unpack host "/data/foo.gz" "/tmp/foo"
       (with_dest "/data/foo.gz" cut_gz "/opt/foo" hello)).2
  = stat host "/opt/foo" (with_dest "/data/foo.gz" cut_gz "/opt/foo" hello).
Proof.
  apply (unpack_writes_temp_only host "/data/foo.gz" "/tmp/foo" "/opt/foo"
           (with_dest "/data/foo.gz" cut_gz "/opt/foo" hello)
           (with_dest "/data/foo.gz" cut_gz "/opt/foo" hello)
           (0%Z, "application/gzip; charset=binary" ++ newline, ""));
    [reflexivity | by left | discriminate].
Defined.

End RunExtras.

(** ** The two suffix tables agree *)

Module SuffixAgreement.
Import PyStr PyStrFacts Derive DeriveFacts Uncompress.










End SuffixAgreement.
